(** * XOR trading engine: risk engine, kill switch, grid and DCA strategies,
      order cancellation and the strategy-engine event bus.

    A shallow embedding of the Python sources.  Python [float] is IEEE 754
    binary64, which is what Rocq's primitive [float] is, so arithmetic and
    comparisons are the code's own (NaN, signed zeros and rounding included).
    The one place where Python differs from IEEE is true division by zero,
    which raises [ZeroDivisionError]: every division that the source does not
    guard is modelled by [Py.truediv].  Objects are records threaded through
    the operations; a method that can raise returns a [Py.result] together
    with the state it leaves behind. *)

From Stdlib Require Import ZArith List Bool String Ascii Lia.
From Stdlib Require Import Floats DecimalString.
Import ListNotations.
Open Scope string_scope.

(* ------------------------------------------------------------------ *)
(** ** Python values                                                    *)
(* ------------------------------------------------------------------ *)

Module Py.

(** Exceptions the modelled code raises.  [is_Exception] tells whether the
    class derives from [Exception] (what [except Exception] catches);
    [CancelledError] derives from [BaseException] only. *)
Inductive exn : Type :=
| ZeroDivisionError
| ValueError (msg : string)
| InvalidOrderError (msg : string)
| JSONDecodeError
| RuntimeError (msg : string)
| CancelledError.

Definition is_Exception (e : exn) : bool :=
  match e with
  | CancelledError => false
  | _ => true
  end.

Inductive result (A : Type) : Type :=
| Ok (a : A)
| Raise (e : exn).
Arguments Ok {A} a.
Arguments Raise {A} e.

Definition bind {A B} (r : result A) (k : A -> result B) : result B :=
  match r with
  | Ok a => k a
  | Raise e => Raise e
  end.

(** [a > b], [a >= b], [a < b], [a <= b], [a == b] on floats. *)
Definition gt (a b : float) : bool := PrimFloat.ltb b a.
Definition ge (a b : float) : bool := PrimFloat.leb b a.
Definition lt (a b : float) : bool := PrimFloat.ltb a b.
Definition le (a b : float) : bool := PrimFloat.leb a b.
Definition eq (a b : float) : bool := PrimFloat.eqb a b.

(** Truth value of a float: everything except [0.0] and [-0.0]. *)
Definition truthy (x : float) : bool := negb (PrimFloat.eqb x 0%float).

(** [a / b]: raises on a zero divisor, IEEE division otherwise. *)
Definition truediv (a b : float) : result float :=
  if PrimFloat.eqb b 0%float then Raise ZeroDivisionError
  else Ok (PrimFloat.div a b).

(** An [int] used in float arithmetic (exact below 2^53). *)
Definition float_of_int (z : Z) : float :=
  if (z <? 0)%Z then PrimFloat.opp (PrimFloat.of_uint63 (Uint63.of_Z (- z)))
  else PrimFloat.of_uint63 (Uint63.of_Z z).

(** [str(n)] for an [int]. *)
Definition str_int (z : Z) : string := NilZero.string_of_int (Z.to_int z).

(** [f"{x}"] for an optional string: [None] prints as "None". *)
Definition str_opt (o : option string) : string :=
  match o with
  | Some s => s
  | None => "None"
  end.

(** Truth value of an optional string: [None] and "" are false. *)
Definition truthy_str (o : option string) : bool :=
  match o with
  | None => false
  | Some s => negb (String.eqb s "")
  end.


(** How floats are printed inside f-strings.  Decimal printing of a
    binary64 is not modelled: the printers are parameters of whatever
    builds a message. *)
Record printer : Type := {
  str_float : float -> string;          (* f"{x}"      *)
  fixed : nat -> float -> string        (* f"{x:.Nf}"  *)
}.

End Py.

(* ------------------------------------------------------------------ *)
(** ** risk-engine/engine/core.py                                       *)
(* ------------------------------------------------------------------ *)

Module Risk.

Record RiskLimits : Type := {
  max_drawdown_percent : float;
  max_position_size_percent : float;
  daily_loss_limit_percent : float;
  max_leverage : Z;
  max_open_positions : Z;
  max_correlation : float;
  max_exposure_per_asset : float
}.

Definition default_limits : RiskLimits := {|
  max_drawdown_percent := 10%float;
  max_position_size_percent := 5%float;
  daily_loss_limit_percent := 3%float;
  max_leverage := 10;
  max_open_positions := 10;
  max_correlation := 0x1.6666666666666p-1%float;   (* 0.7 *)
  max_exposure_per_asset := 20%float
|}.

Record PositionRisk : Type := {
  symbol : string;
  side : string;
  size : float;
  entry_price : float;
  current_price : float;
  leverage : float;
  unrealized_pnl : float;
  unrealized_pnl_percent : float;
  liquidation_distance_percent : float
}.

Record PortfolioRisk : Type := {
  total_equity : float;
  total_exposure : float;
  total_unrealized_pnl : float;
  total_realized_pnl_today : float;
  current_drawdown_percent : float;
  pr_max_drawdown_percent : float;
  open_positions : Z;
  daily_pnl_percent : float;
  timestamp : Z
}.

(** [positions] is a dict keyed by symbol.  It is kept as an association
    list in insertion order, because the sums of
    [calculate_portfolio_risk] add floats in iteration order. *)
Record RiskEngine : Type := {
  limits : RiskLimits;
  peak_equity : float;
  starting_equity_today : float;
  realized_pnl_today : float;
  positions : list (string * PositionRisk);
  last_reset_date : option Z;
  is_killed : bool;
  kill_reason : option string
}.

(** [RiskEngine(limits)] *)
Definition init (l : option RiskLimits) : RiskEngine := {|
  limits := match l with Some l => l | None => default_limits end;
  peak_equity := 0%float;
  starting_equity_today := 0%float;
  realized_pnl_today := 0%float;
  positions := [];
  last_reset_date := None;
  is_killed := false;
  kill_reason := None
|}.

(** dict operations on [positions] *)
Definition mem (k : string) (d : list (string * PositionRisk)) : bool :=
  existsb (fun kv => String.eqb (fst kv) k) d.

Definition del (k : string) (d : list (string * PositionRisk))
  : list (string * PositionRisk) :=
  filter (fun kv => negb (String.eqb (fst kv) k)) d.

Fixpoint setitem (k : string) (v : PositionRisk)
    (d : list (string * PositionRisk)) : list (string * PositionRisk) :=
  match d with
  | [] => [(k, v)]
  | (k', v') :: rest =>
      if String.eqb k' k then (k', v) :: rest
      else (k', v') :: setitem k v rest
  end.

Definition len (d : list (string * PositionRisk)) : Z :=
  Z.of_nat (List.length d).

Definition update_limits (self : RiskEngine) (l : RiskLimits) : RiskEngine :=
  {| limits := l;
     peak_equity := peak_equity self;
     starting_equity_today := starting_equity_today self;
     realized_pnl_today := realized_pnl_today self;
     positions := positions self;
     last_reset_date := last_reset_date self;
     is_killed := is_killed self;
     kill_reason := kill_reason self |}.

Definition _check_daily_loss_exceeded (self : RiskEngine) : bool :=
  if Py.eq (starting_equity_today self) 0%float then false
  else
    let current_equity :=
      (starting_equity_today self + realized_pnl_today self)%float in
    let daily_loss_pct :=
      ((starting_equity_today self - current_equity)
         / starting_equity_today self * 100)%float in
    Py.ge daily_loss_pct (daily_loss_limit_percent (limits self)).

Definition _check_max_drawdown_exceeded (self : RiskEngine)
    (current_equity : float) : bool :=
  if Py.eq (peak_equity self) 0%float then false
  else
    let current_dd :=
      ((peak_equity self - current_equity) / peak_equity self * 100)%float in
    Py.ge current_dd (max_drawdown_percent (limits self)).

(** The dict that [validate_order] returns. *)
Record Validation : Type := {
  valid : bool;
  reason : option string
}.

Definition reject (msg : string) : Validation :=
  {| valid := false; reason := Some msg |}.

Section Messages.
Variable pr : Py.printer.

Definition kill_switch_msg (self : RiskEngine) : string :=
  "Kill switch active: " ++ Py.str_opt (kill_reason self).

Definition leverage_msg (self : RiskEngine) (lev : float) : string :=
  "Leverage " ++ Py.str_float pr lev ++ "x exceeds max "
    ++ Py.str_int (max_leverage (limits self)) ++ "x".

Definition position_size_msg (self : RiskEngine) (pct : float) : string :=
  "Position size " ++ Py.fixed pr 1 pct ++ "% exceeds max "
    ++ Py.str_float pr (max_position_size_percent (limits self)) ++ "%".

Definition open_positions_msg (self : RiskEngine) : string :=
  "Max open positions (" ++ Py.str_int (max_open_positions (limits self))
    ++ ") reached".

Definition daily_loss_msg (self : RiskEngine) : string :=
  "Daily loss limit ("
    ++ Py.str_float pr (daily_loss_limit_percent (limits self))
    ++ "%) exceeded".

Definition drawdown_msg (self : RiskEngine) : string :=
  "Max drawdown (" ++ Py.str_float pr (max_drawdown_percent (limits self))
    ++ "%) exceeded".

(** [position_size_percent] of [validate_order]: the division is only
    reached for a truthy [portfolio_value]. *)
Definition position_size_percent (quantity price portfolio_value : float)
  : float :=
  let order_value := (quantity * price)%float in
  if Py.truthy portfolio_value
  then (order_value / portfolio_value * 100)%float
  else 0%float.

Definition validate_order (self : RiskEngine) (sym sd : string)
    (quantity price lev portfolio_value : float) : Validation :=
  if is_killed self then reject (kill_switch_msg self)
  else if Py.gt lev (Py.float_of_int (max_leverage (limits self)))
  then reject (leverage_msg self lev)
  else
    let pct := position_size_percent quantity price portfolio_value in
    if Py.gt pct (max_position_size_percent (limits self))
    then reject (position_size_msg self pct)
    else if (len (positions self) >=? max_open_positions (limits self))%Z
            && negb (mem sym (positions self))
    then reject (open_positions_msg self)
    else if _check_daily_loss_exceeded self
    then reject (daily_loss_msg self)
    else if _check_max_drawdown_exceeded self portfolio_value
    then reject (drawdown_msg self)
    else {| valid := true; reason := None |}.
End Messages.

Definition set_positions (self : RiskEngine)
    (d : list (string * PositionRisk)) : RiskEngine :=
  {| limits := limits self;
     peak_equity := peak_equity self;
     starting_equity_today := starting_equity_today self;
     realized_pnl_today := realized_pnl_today self;
     positions := d;
     last_reset_date := last_reset_date self;
     is_killed := is_killed self;
     kill_reason := kill_reason self |}.

(** [update_position]: the percentage divides by [entry_price * size]
    unguarded, so it can raise; nothing has been assigned by then. *)
Definition update_position (self : RiskEngine) (sym sd : string)
    (sz entry current lev : float) : Py.result RiskEngine :=
  if Py.eq sz 0%float then
    Py.Ok (if mem sym (positions self)
           then set_positions self (del sym (positions self))
           else self)
  else
    let pnl :=
      if String.eqb sd "long" then ((current - entry) * sz)%float
      else ((entry - current) * sz)%float in
    Py.bind (Py.truediv pnl (entry * sz)%float) (fun q =>
      let pnl_percent := (q * 100)%float in
      Py.Ok (set_positions self
        (setitem sym
           {| symbol := sym; side := sd; size := sz; entry_price := entry;
              current_price := current; leverage := lev;
              unrealized_pnl := pnl; unrealized_pnl_percent := pnl_percent;
              liquidation_distance_percent := 0%float |}
           (positions self)))).

(** [sum(...)] over the dict's values, starting from the int 0. *)
Definition sum_floats (xs : list float) : float :=
  fold_left PrimFloat.add xs 0%float.

Definition set_peak (self : RiskEngine) (p : float) : RiskEngine :=
  {| limits := limits self;
     peak_equity := p;
     starting_equity_today := starting_equity_today self;
     realized_pnl_today := realized_pnl_today self;
     positions := positions self;
     last_reset_date := last_reset_date self;
     is_killed := is_killed self;
     kill_reason := kill_reason self |}.

(** [calculate_portfolio_risk]; [now] is [datetime.utcnow()]. *)
Definition calculate_portfolio_risk (self : RiskEngine) (now : Z)
    (equity : float) : RiskEngine * PortfolioRisk :=
  let self1 :=
    if Py.gt equity (peak_equity self) then set_peak self equity else self in
  let current_dd :=
    if Py.gt (peak_equity self1) 0%float
    then ((peak_equity self1 - equity) / peak_equity self1 * 100)%float
    else 0%float in
  let total_unrealized :=
    sum_floats (map (fun kv => unrealized_pnl (snd kv)) (positions self1)) in
  let exposure :=
    sum_floats
      (map (fun kv => (size (snd kv) * current_price (snd kv)
                         * leverage (snd kv))%float)
           (positions self1)) in
  let daily_pnl :=
    if Py.gt (starting_equity_today self1) 0%float
    then ((equity - starting_equity_today self1)
            / starting_equity_today self1 * 100)%float
    else 0%float in
  (self1,
   {| total_equity := equity;
      total_exposure := exposure;
      total_unrealized_pnl := total_unrealized;
      total_realized_pnl_today := realized_pnl_today self1;
      current_drawdown_percent := current_dd;
      pr_max_drawdown_percent := max_drawdown_percent (limits self1);
      open_positions := len (positions self1);
      daily_pnl_percent := daily_pnl;
      timestamp := now |}).

Definition trigger_kill_switch (self : RiskEngine) (why : string)
  : RiskEngine :=
  {| limits := limits self;
     peak_equity := peak_equity self;
     starting_equity_today := starting_equity_today self;
     realized_pnl_today := realized_pnl_today self;
     positions := positions self;
     last_reset_date := last_reset_date self;
     is_killed := true;
     kill_reason := Some why |}.

(** [reset_kill_switch(self)]: no argument besides [self]. *)
Definition reset_kill_switch (self : RiskEngine) : RiskEngine :=
  {| limits := limits self;
     peak_equity := peak_equity self;
     starting_equity_today := starting_equity_today self;
     realized_pnl_today := realized_pnl_today self;
     positions := positions self;
     last_reset_date := last_reset_date self;
     is_killed := false;
     kill_reason := None |}.

(** [reset_daily_tracking]; [today] is [datetime.utcnow().date()]. *)
Definition reset_daily_tracking (self : RiskEngine) (today : Z)
    (equity : float) : RiskEngine :=
  {| limits := limits self;
     peak_equity := peak_equity self;
     starting_equity_today := equity;
     realized_pnl_today := 0%float;
     positions := positions self;
     last_reset_date := Some today;
     is_killed := is_killed self;
     kill_reason := kill_reason self |}.

(** The public operations, as calls made on one engine instance. *)
Inductive call : Type :=
| UpdateLimits (l : RiskLimits)
| ValidateOrder (sym sd : string) (quantity price lev portfolio_value : float)
| UpdatePosition (sym sd : string) (sz entry current lev : float)
| CalculatePortfolioRisk (now : Z) (equity : float)
| TriggerKillSwitch (why : string)
| ResetKillSwitch
| ResetDailyTracking (today : Z) (equity : float).

Definition is_reset (c : call) : bool :=
  match c with
  | ResetKillSwitch => true
  | _ => false
  end.

(** The engine after one call (a call that raises leaves it as it was). *)
Definition step (self : RiskEngine) (c : call) : RiskEngine :=
  match c with
  | UpdateLimits l => update_limits self l
  | ValidateOrder _ _ _ _ _ _ => self
  | UpdatePosition sym sd sz entry current lev =>
      match update_position self sym sd sz entry current lev with
      | Py.Ok self' => self'
      | Py.Raise _ => self
      end
  | CalculatePortfolioRisk now equity =>
      fst (calculate_portfolio_risk self now equity)
  | TriggerKillSwitch why => trigger_kill_switch self why
  | ResetKillSwitch => reset_kill_switch self
  | ResetDailyTracking today equity => reset_daily_tracking self today equity
  end.

Definition run (self : RiskEngine) (cs : list call) : RiskEngine :=
  fold_left step cs self.

(** How two readings of a float compare when the later one, [b], is the
    earlier one, [a], itself or strictly above it. *)
Definition not_below (a b : float) : Prop :=
  b = a \/ Py.gt b a = true.



End Risk.

(* ------------------------------------------------------------------ *)
(** ** risk-engine/engine/kill_switch.py                                *)
(* ------------------------------------------------------------------ *)

Module Kill.

Inductive KillSwitchTrigger : Type :=
| MANUAL
| MAX_DRAWDOWN
| DAILY_LOSS
| EXCHANGE_ERROR
| POSITION_LIQUIDATION
| ABNORMAL_VOLATILITY
| CONNECTION_LOSS
| SYSTEM_ERROR.

(** [trigger.value] *)
Definition value (t : KillSwitchTrigger) : string :=
  match t with
  | MANUAL => "manual"
  | MAX_DRAWDOWN => "max_drawdown"
  | DAILY_LOSS => "daily_loss"
  | EXCHANGE_ERROR => "exchange_error"
  | POSITION_LIQUIDATION => "position_liquidation"
  | ABNORMAL_VOLATILITY => "abnormal_volatility"
  | CONNECTION_LOSS => "connection_loss"
  | SYSTEM_ERROR => "system_error"
  end.

Record KillSwitchEvent : Type := {
  trigger : KillSwitchTrigger;
  reason : string;
  ev_affected_bots : list string;
  timestamp : Z;
  auto_reset_at : option Z
}.

Record KillSwitch : Type := {
  is_active : bool;
  events : list KillSwitchEvent;
  affected_bots : list string
}.

(** [KillSwitch()] *)
Definition init : KillSwitch :=
  {| is_active := false; events := []; affected_bots := [] |}.

(** [activate(trigger, reason, bot_ids)]; [bot_ids or []] turns [None]
    into the empty list.  [now] is [datetime.utcnow()]. *)
Definition activate (self : KillSwitch) (now : Z) (t : KillSwitchTrigger)
    (why : string) (bot_ids : option (list string))
  : KillSwitch * KillSwitchEvent :=
  let bots := match bot_ids with Some l => l | None => [] end in
  let event :=
    {| trigger := t; reason := why; ev_affected_bots := bots;
       timestamp := now; auto_reset_at := None |} in
  ({| is_active := true;
      events := events self ++ [event];
      affected_bots := bots |},
   event).

(** [deactivate(confirmation_code)]: the code is only tested for truth. *)
Definition deactivate (self : KillSwitch) (confirmation_code : option string)
  : KillSwitch * Py.result unit :=
  if negb (Py.truthy_str confirmation_code) then
    (self, Py.Raise (Py.ValueError "Confirmation required to reset kill switch"))
  else
    ({| is_active := false; events := events self; affected_bots := [] |},
     Py.Ok tt).

Section Messages.
Variable pr : Py.printer.

Definition check_conditions (self : KillSwitch) (now : Z)
    (current_drawdown max_drawdown daily_loss max_daily_loss : float)
    (exchange_healthy : bool) : KillSwitch * option KillSwitchEvent :=
  if is_active self then (self, None)
  else if Py.ge current_drawdown max_drawdown then
    let r := activate self now MAX_DRAWDOWN
               ("Drawdown " ++ Py.fixed pr 2 current_drawdown
                  ++ "% exceeded limit " ++ Py.fixed pr 2 max_drawdown ++ "%")
               None in
    (fst r, Some (snd r))
  else if Py.ge daily_loss max_daily_loss then
    let r := activate self now DAILY_LOSS
               ("Daily loss " ++ Py.fixed pr 2 daily_loss
                  ++ "% exceeded limit " ++ Py.fixed pr 2 max_daily_loss ++ "%")
               None in
    (fst r, Some (snd r))
  else if negb exchange_healthy then
    let r := activate self now EXCHANGE_ERROR
               "Exchange connection unhealthy" None in
    (fst r, Some (snd r))
  else (self, None).
End Messages.

Record Status : Type := {
  st_is_active : bool;
  st_affected_bots : list string;
  last_event : option string;
  total_activations : Z
}.

Definition get_status (self : KillSwitch) : Status :=
  {| st_is_active := is_active self;
     st_affected_bots := affected_bots self;
     last_event :=
       match rev (events self) with
       | e :: _ => Some (reason e)
       | [] => None
       end;
     total_activations := Z.of_nat (List.length (events self)) |}.

End Kill.

(* ------------------------------------------------------------------ *)
(** ** strategy-engine/engine/strategies/base.py                        *)
(* ------------------------------------------------------------------ *)

Module Strategy.

Inductive SignalType : Type := BUY | SELL | CLOSE_LONG | CLOSE_SHORT | HOLD.

(** What a strategy stores under [indicators]. *)
Inductive indicator : Type :=
| IFloat (x : float)
| IStr (s : string)
| IInt (z : Z).

(** A signal.  [timestamp], the clock reading taken when the dataclass is
    built, is left out: nothing in the strategies reads it. *)
Record Signal : Type := {
  type : SignalType;
  symbol : string;
  price : float;
  quantity : option float;
  confidence : float;
  reason : string;
  stop_loss : option float;
  take_profit : option float;
  indicators : list (string * indicator)
}.

(** A market tick: the dict's ["price"] entry, when present. *)
Record Tick : Type := { tick_price : option float }.

(** [tick.get("price", 0)] *)
Definition get_price (t : Tick) : float :=
  match tick_price t with
  | Some p => p
  | None => 0%float
  end.

Definition tick (p : float) : Tick := {| tick_price := Some p |}.

(** A fill notification: the dict's ["quantity"] and ["price"]. *)
Record Fill : Type := {
  fill_quantity : option float;
  fill_price : option float
}.

Definition get_or_zero (o : option float) : float :=
  match o with
  | Some x => x
  | None => 0%float
  end.

End Strategy.

(* ------------------------------------------------------------------ *)
(** ** strategy-engine/engine/strategies/grid.py                        *)
(* ------------------------------------------------------------------ *)

Module Grid.
Import Strategy.

Record GridLevel : Type := {
  price : float;
  is_buy : bool;
  is_filled : bool;
  order_id : option string
}.

(** [GridLevel(price=p, is_buy=True)] *)
Definition new_level (p : float) : GridLevel :=
  {| price := p; is_buy := true; is_filled := false; order_id := None |}.

Record GridStrategy : Type := {
  symbol : string;
  is_running : bool;
  current_price : float;
  grid_type : string;
  upper_price : float;
  lower_price : float;
  grid_count : Z;
  order_size : float;
  trigger_price : option float;
  grid_levels : list GridLevel;
  is_active : bool;
  total_profit : float
}.

(** [GridStrategy(symbol, params)]: ["grid_type"] defaults to
    "arithmetic", ["trigger_price"] to [None]. *)
Definition init (sym : string) (gtype : option string)
    (upper lower : float) (count : Z) (osize : float)
    (trig : option float) : GridStrategy :=
  {| symbol := sym;
     is_running := false;
     current_price := 0%float;
     grid_type := match gtype with Some t => t | None => "arithmetic" end;
     upper_price := upper;
     lower_price := lower;
     grid_count := count;
     order_size := osize;
     trigger_price := trig;
     grid_levels := [];
     is_active := false;
     total_profit := 0%float |}.

Definition set_levels (self : GridStrategy) (running : bool)
    (ls : list GridLevel) : GridStrategy :=
  {| symbol := symbol self;
     is_running := running;
     current_price := current_price self;
     grid_type := grid_type self;
     upper_price := upper_price self;
     lower_price := lower_price self;
     grid_count := grid_count self;
     order_size := order_size self;
     trigger_price := trigger_price self;
     grid_levels := ls;
     is_active := is_active self;
     total_profit := total_profit self |}.

(** [range(n)] as the ints 0 .. n-1 (empty for n <= 0). *)
Definition range (n : Z) : list Z :=
  map Z.of_nat (seq 0 (Z.to_nat n)).

Section Build.
(** [x ** y] on floats is not one of the IEEE operations of the
    embedding; the geometric grid takes it as a parameter. *)
Variable pow : float -> float -> Py.result float.

Fixpoint geometric_levels (lower ratio : float) (idx : list Z)
  : Py.result (list GridLevel) :=
  match idx with
  | [] => Py.Ok []
  | i :: rest =>
      Py.bind (pow ratio (Py.float_of_int i)) (fun r =>
      Py.bind (geometric_levels lower ratio rest) (fun ls =>
      Py.Ok (new_level (lower * r)%float :: ls)))
  end.

(** [_build_grid]: the levels, lowest first, all of them buy levels. *)
Definition _build_grid (self : GridStrategy)
  : Py.result (list GridLevel) :=
  if String.eqb (grid_type self) "arithmetic" then
    Py.bind
      (Py.truediv (upper_price self - lower_price self)%float
                  (Py.float_of_int (grid_count self)))
      (fun step =>
         Py.Ok (map (fun i =>
                  new_level (lower_price self
                             + Py.float_of_int i * step)%float)
               (range (grid_count self + 1))))
  else
    Py.bind (Py.truediv (upper_price self) (lower_price self)) (fun q =>
    Py.bind (Py.truediv 1%float (Py.float_of_int (grid_count self)))
      (fun e =>
    Py.bind (pow q e) (fun ratio =>
      geometric_levels (lower_price self) ratio
        (range (grid_count self + 1))))).

(** [initialize]: [is_running] is set by the base class before the grid
    is built; [grid_levels] is emptied before the step is computed. *)
Definition initialize (self : GridStrategy)
  : GridStrategy * Py.result unit :=
  match _build_grid self with
  | Py.Ok ls => (set_levels self true ls, Py.Ok tt)
  | Py.Raise e => (set_levels self true [], Py.Raise e)
  end.
End Build.

Section Ticks.
Variable pr : Py.printer.

Definition buy_signal (self : GridStrategy) (level : GridLevel) : Signal :=
  {| type := BUY;
     Strategy.symbol := symbol self;
     Strategy.price := price level;
     quantity := Some (order_size self);
     confidence := 1%float;
     reason := "Grid buy at " ++ Py.str_float pr (price level);
     stop_loss := None;
     take_profit := None;
     indicators := [("grid_level", IFloat (price level))] |}.

Definition sell_signal (self : GridStrategy) (level : GridLevel) : Signal :=
  {| type := SELL;
     Strategy.symbol := symbol self;
     Strategy.price := price level;
     quantity := Some (order_size self);
     confidence := 1%float;
     reason := "Grid sell at " ++ Py.str_float pr (price level);
     stop_loss := None;
     take_profit := None;
     indicators := [("grid_level", IFloat (price level))] |}.

(** The [for level in self.grid_levels] loop of [on_tick]: the levels
    after the loop and the signal it returned, if any. *)
Fixpoint scan (self : GridStrategy) (p : float) (levels : list GridLevel)
  : list GridLevel * option Signal :=
  match levels with
  | [] => ([], None)
  | level :: rest =>
      if is_filled level then
        let r := scan self p rest in (level :: fst r, snd r)
      else if is_buy level && Py.le p (price level) then
        ({| price := price level; is_buy := false; is_filled := true;
            order_id := order_id level |} :: rest,
         Some (buy_signal self level))
      else if negb (is_buy level) && Py.ge p (price level) then
        ({| price := price level; is_buy := true; is_filled := false;
            order_id := order_id level |} :: rest,
         Some (sell_signal self level))
      else
        let r := scan self p rest in (level :: fst r, snd r)
  end.

Definition set_tick (self : GridStrategy) (p : float) (active : bool)
    (ls : list GridLevel) : GridStrategy :=
  {| symbol := symbol self;
     is_running := is_running self;
     current_price := p;
     grid_type := grid_type self;
     upper_price := upper_price self;
     lower_price := lower_price self;
     grid_count := grid_count self;
     order_size := order_size self;
     trigger_price := trigger_price self;
     grid_levels := ls;
     is_active := active;
     total_profit := total_profit self |}.

(** Truth value of [self.trigger_price]. *)
Definition has_trigger (self : GridStrategy) : bool :=
  match trigger_price self with
  | Some t => Py.truthy t
  | None => false
  end.

Definition on_tick (self : GridStrategy) (t : Tick)
  : GridStrategy * option Signal :=
  let p := get_price t in
  if negb (Py.truthy p) then (self, None)
  else if has_trigger self && negb (is_active self)
          && negb (Py.ge p (get_or_zero (trigger_price self)))
  then (set_tick self p (is_active self) (grid_levels self), None)
  else if Py.gt p (upper_price self) || Py.lt p (lower_price self)
  then (set_tick self p true (grid_levels self), None)
  else
    let r := scan self p (grid_levels self) in
    (set_tick self p true (fst r), snd r).

(** Feeding a sequence of ticks: the final strategy and what each tick
    returned. *)
Fixpoint on_ticks (self : GridStrategy) (ts : list Tick)
  : GridStrategy * list (option Signal) :=
  match ts with
  | [] => (self, [])
  | t :: rest =>
      let r := on_tick self t in
      let r' := on_ticks (fst r) rest in
      (fst r', snd r :: snd r')
  end.
End Ticks.

Definition get_active_orders_count (self : GridStrategy) : Z :=
  Z.of_nat (List.length (filter (fun l => negb (is_filled l))
                                (grid_levels self))).

Definition validate_params (self : GridStrategy) : bool :=
  if Py.le (upper_price self) (lower_price self) then false
  else if (grid_count self <? 2)%Z then false
  else if Py.le (order_size self) 0%float then false
  else true.

(** The signals that a run of ticks emitted, as (type, price) pairs. *)
Definition emitted (rs : list (option Signal)) : list (SignalType * float) :=
  flat_map (fun r => match r with
                     | Some s => [(type s, Strategy.price s)]
                     | None => []
                     end) rs.

(** What every level satisfies from [initialize] on: it waits for a sell
    exactly when it is marked filled. *)
Definition level_ok (l : GridLevel) : Prop :=
  is_buy l = negb (is_filled l).

(** The signal types of a run of ticks. *)
Definition emitted_types (rs : list (option Signal)) : list SignalType :=
  map fst (emitted rs).

End Grid.

(* ------------------------------------------------------------------ *)
(** ** strategy-engine/engine/strategies/dca.py                         *)
(* ------------------------------------------------------------------ *)

Module DCA.
Import Strategy.

Record SafetyOrder : Type := {
  order_num : Z;
  deviation_percent : float;
  size : float;
  trigger_price : float;
  is_filled : bool
}.

Record DCAStrategy : Type := {
  symbol : string;
  is_running : bool;
  current_price : float;
  entry_price : float;
  base_order_size : float;
  safety_order_size : float;
  max_safety_orders : Z;
  price_deviation : float;
  step_scale : float;
  volume_scale : float;
  take_profit_pct : float;
  stop_loss_pct : option float;
  safety_orders : list SafetyOrder;
  base_order_filled : bool;
  average_entry : float;
  total_quantity : float;
  total_invested : float
}.

Definition default {A} (o : option A) (d : A) : A :=
  match o with
  | Some a => a
  | None => d
  end.

(** [DCAStrategy(symbol, params)] with the defaults of [params.get]. *)
Definition init (sym : string) (base safety : float) (max_so : option Z)
    (deviation step volume tp : option float) (sl : option float)
  : DCAStrategy :=
  {| symbol := sym;
     is_running := false;
     current_price := 0%float;
     entry_price := 0%float;
     base_order_size := base;
     safety_order_size := safety;
     max_safety_orders := default max_so 5%Z;
     price_deviation := default deviation 1%float;
     step_scale := default step 1%float;
     volume_scale := default volume 1%float;
     take_profit_pct := default tp 1.5%float;
     stop_loss_pct := sl;
     safety_orders := [];
     base_order_filled := false;
     average_entry := 0%float;
     total_quantity := 0%float;
     total_invested := 0%float |}.

(** The mutable part of the strategy, written back in one go. *)
Definition with_state (self : DCAStrategy) (running : bool)
    (cur entry : float) (sos : list SafetyOrder) (base_filled : bool)
    (avg qty invested : float) : DCAStrategy :=
  {| symbol := symbol self;
     is_running := running;
     current_price := cur;
     entry_price := entry;
     base_order_size := base_order_size self;
     safety_order_size := safety_order_size self;
     max_safety_orders := max_safety_orders self;
     price_deviation := price_deviation self;
     step_scale := step_scale self;
     volume_scale := volume_scale self;
     take_profit_pct := take_profit_pct self;
     stop_loss_pct := stop_loss_pct self;
     safety_orders := sos;
     base_order_filled := base_filled;
     average_entry := avg;
     total_quantity := qty;
     total_invested := invested |}.

(** The loop of [_build_safety_orders], [n] iterations from index [i]. *)
Fixpoint ladder (self : DCAStrategy) (n : nat) (i : Z)
    (current_deviation current_size : float) : list SafetyOrder :=
  match n with
  | O => []
  | S n' =>
      {| order_num := i + 1;
         deviation_percent := current_deviation;
         size := current_size;
         trigger_price := 0%float;
         is_filled := false |}
      :: ladder self n' (i + 1)
           (current_deviation + price_deviation self * step_scale self)%float
           (current_size * volume_scale self)%float
  end.

Definition _build_safety_orders (self : DCAStrategy) : list SafetyOrder :=
  ladder self (Z.to_nat (max_safety_orders self)) 0
    (price_deviation self) (safety_order_size self).

Definition initialize (self : DCAStrategy) : DCAStrategy :=
  with_state self true (current_price self) (entry_price self)
    (_build_safety_orders self) (base_order_filled self)
    (average_entry self) (total_quantity self) (total_invested self).

Definition _update_safety_triggers (entry : float)
    (sos : list SafetyOrder) : list SafetyOrder :=
  map (fun so =>
         {| order_num := order_num so;
            deviation_percent := deviation_percent so;
            size := size so;
            trigger_price :=
              (entry * (1 - deviation_percent so / 100))%float;
            is_filled := is_filled so |}) sos.

Section Ticks.
Variable pr : Py.printer.

Definition base_signal (self : DCAStrategy) (p : float) : Signal :=
  {| type := BUY;
     Strategy.symbol := symbol self;
     Strategy.price := p;
     quantity := Some (base_order_size self);
     confidence := 1%float;
     reason := "DCA base order";
     stop_loss := None;
     take_profit := None;
     indicators := [("order_type", IStr "base")] |}.

Definition exit_signal (self : DCAStrategy) (what : string)
    (p pnl_percent : float) : Signal :=
  {| type := SELL;
     Strategy.symbol := symbol self;
     Strategy.price := p;
     quantity := Some (total_quantity self);
     confidence := 1%float;
     reason := what ++ Py.fixed pr 2 pnl_percent ++ "%";
     stop_loss := None;
     take_profit := None;
     indicators := [("pnl_percent", IFloat pnl_percent)] |}.

Definition safety_signal (self : DCAStrategy) (so : SafetyOrder)
    (p : float) : Signal :=
  {| type := BUY;
     Strategy.symbol := symbol self;
     Strategy.price := p;
     quantity := Some (size so);
     confidence := 1%float;
     reason := "Safety order #" ++ Py.str_int (order_num so);
     stop_loss := None;
     take_profit := None;
     indicators := [("order_type", IStr "safety");
                    ("order_num", IInt (order_num so))] |}.

(** The [for so in self.safety_orders] loop of [on_tick]. *)
Fixpoint scan (self : DCAStrategy) (p : float) (sos : list SafetyOrder)
  : list SafetyOrder * option Signal :=
  match sos with
  | [] => ([], None)
  | so :: rest =>
      if is_filled so then
        let r := scan self p rest in (so :: fst r, snd r)
      else if Py.le p (trigger_price so) then
        ({| order_num := order_num so;
            deviation_percent := deviation_percent so;
            size := size so;
            trigger_price := trigger_price so;
            is_filled := true |} :: rest,
         Some (safety_signal self so p))
      else
        let r := scan self p rest in (so :: fst r, snd r)
  end.

Definition set_price (self : DCAStrategy) (p : float) : DCAStrategy :=
  with_state self (is_running self) p (entry_price self)
    (safety_orders self) (base_order_filled self)
    (average_entry self) (total_quantity self) (total_invested self).

(** Truth value of [self.stop_loss_pct]. *)
Definition has_stop_loss (self : DCAStrategy) : bool :=
  match stop_loss_pct self with
  | Some sl => Py.truthy sl
  | None => false
  end.

(** The tail of [on_tick]: the safety-order loop. *)
Definition check_safety_orders (self : DCAStrategy) (p : float)
  : DCAStrategy * Py.result (option Signal) :=
  let r := scan self p (safety_orders self) in
  (with_state self (is_running self) p (entry_price self)
     (fst r) (base_order_filled self)
     (average_entry self) (total_quantity self) (total_invested self),
   Py.Ok (snd r)).

(** [on_tick]: the strategy it leaves and what it returns or raises
    (the profit percentage divides by [average_entry] unguarded). *)
Definition on_tick (self : DCAStrategy) (t : Tick)
  : DCAStrategy * Py.result (option Signal) :=
  let p := get_price t in
  if negb (Py.truthy p) then (self, Py.Ok None)
  else if negb (base_order_filled self) then
    (with_state self (is_running self) p p
       (_update_safety_triggers p (safety_orders self)) true
       (average_entry self) (total_quantity self) (total_invested self),
     Py.Ok (Some (base_signal self p)))
  else if Py.gt (total_quantity self) 0%float then
    match Py.truediv (p - average_entry self)%float (average_entry self) with
    | Py.Raise e => (set_price self p, Py.Raise e)
    | Py.Ok q =>
        let pnl_percent := (q * 100)%float in
        if Py.ge pnl_percent (take_profit_pct self) then
          (set_price self p,
           Py.Ok (Some (exit_signal self "Take profit at " p pnl_percent)))
        else if has_stop_loss self
                && Py.le pnl_percent
                     (- get_or_zero (stop_loss_pct self))%float then
          (set_price self p,
           Py.Ok (Some (exit_signal self "Stop loss at " p pnl_percent)))
        else check_safety_orders self p
    end
  else check_safety_orders self p.
End Ticks.

(** [on_order_filled]: the totals are updated before the average is
    computed, so they stay updated when the division raises. *)
Definition on_order_filled (self : DCAStrategy) (order : Fill)
  : DCAStrategy * Py.result unit :=
  let q := get_or_zero (fill_quantity order) in
  let p := get_or_zero (fill_price order) in
  let qty := (total_quantity self + q)%float in
  let invested := (total_invested self + q * p)%float in
  match Py.truediv invested qty with
  | Py.Raise e =>
      (with_state self (is_running self) (current_price self)
         (entry_price self) (safety_orders self) (base_order_filled self)
         (average_entry self) qty invested,
       Py.Raise e)
  | Py.Ok avg =>
      (with_state self (is_running self) (current_price self)
         (entry_price self) (safety_orders self) (base_order_filled self)
         avg qty invested,
       Py.Ok tt)
  end.

(** Fill notifications delivered one after the other. *)
Definition on_orders_filled (self : DCAStrategy) (orders : list Fill)
  : DCAStrategy :=
  fold_left (fun s o => fst (on_order_filled s o)) orders self.

Definition validate_params (self : DCAStrategy) : bool :=
  if Py.le (base_order_size self) 0%float then false
  else if Py.le (safety_order_size self) 0%float then false
  else if Py.le (take_profit_pct self) 0%float then false
  else true.

(** A strategy that is ready for a new cycle, as after [initialize] on a
    new instance: no base order, no safety order filled, totals at zero. *)
Definition fresh_cycle (self : DCAStrategy) : Prop :=
  base_order_filled self = false
  /\ forallb (fun so => negb (is_filled so)) (safety_orders self) = true
  /\ total_quantity self = 0%float
  /\ total_invested self = 0%float.

End DCA.

(* ------------------------------------------------------------------ *)
(** ** backend/app/models/order.py, backend/app/services/order_service.py *)
(* ------------------------------------------------------------------ *)

Module Orders.

Inductive OrderStatus : Type :=
| PENDING
| SUBMITTED
| OPEN
| PARTIAL
| FILLED
| CANCELLED
| REJECTED
| EXPIRED.

(** [status.value] *)
Definition value (s : OrderStatus) : string :=
  match s with
  | PENDING => "pending"
  | SUBMITTED => "submitted"
  | OPEN => "open"
  | PARTIAL => "partial"
  | FILLED => "filled"
  | CANCELLED => "cancelled"
  | REJECTED => "rejected"
  | EXPIRED => "expired"
  end.

Record Order : Type := {
  id : string;
  user_id : string;
  bot_id : string;
  exchange_order_id : option string;
  symbol : string;
  status : OrderStatus;
  quantity : float;
  filled_quantity : float;
  filled_at : option Z;
  cancelled_at : option Z
}.

(** [Order.is_open] *)
Definition is_open (o : Order) : bool :=
  match status o with
  | OPEN | PARTIAL | SUBMITTED => true
  | _ => false
  end.

(** [Order.is_filled] *)
Definition is_filled (o : Order) : bool :=
  match status o with
  | FILLED => true
  | _ => false
  end.


(** An event as [EventBus.emit] builds and publishes it. *)
Record Event : Type := {
  event_id : string;
  type : string;
  data : list (string * option string);
  timestamp : Z;
  source : string;
  correlation_id : option string
}.

Definition ORDER_CANCELLED : string := "order.cancelled".

(** What the service acts on: the session (commits issued so far) and
    the bus (its service name and what was published, newest last).
    Both are assumed reachable: a failing commit or publish is not
    modelled. *)
Record OrderService : Type := {
  commits : nat;
  service_name : string;
  published : list (string * Event)
}.

(** [EventBus.emit(event_type, data)]; [uuid] and [now] are the values
    of [uuid4()] and [datetime.utcnow()] at that moment. *)
Definition emit (self : OrderService) (uuid : string) (now : Z)
    (event_type : string) (d : list (string * option string))
  : OrderService * Event :=
  let event :=
    {| event_id := uuid; type := event_type; data := d; timestamp := now;
       source := service_name self; correlation_id := None |} in
  ({| commits := commits self;
      service_name := service_name self;
      published := published self ++ [("xor:events:" ++ event_type, event)] |},
   event).

Definition commit (self : OrderService) : OrderService :=
  {| commits := S (commits self);
     service_name := service_name self;
     published := published self |}.

Definition set_cancelled (o : Order) (now : Z) : Order :=
  {| id := id o;
     user_id := user_id o;
     bot_id := bot_id o;
     exchange_order_id := exchange_order_id o;
     symbol := symbol o;
     status := CANCELLED;
     quantity := quantity o;
     filled_quantity := filled_quantity o;
     filled_at := filled_at o;
     cancelled_at := Some now |}.

(** [OrderService.cancel_order(order)]: the service and the order it
    leaves, and the order returned or the exception raised. *)
Definition cancel_order (self : OrderService) (order : Order)
    (now : Z) (uuid : string) (now_event : Z)
  : OrderService * Order * Py.result Order :=
  if negb (is_open order) then
    (self, order,
     Py.Raise (Py.ValueError
                 ("Cannot cancel order with status: " ++ value (status order))))
  else
    let order' := set_cancelled order now in
    let self1 := commit self in
    let self2 :=
      fst (emit self1 uuid now_event ORDER_CANCELLED
             [("order_id", Some (id order'));
              ("exchange_order_id", exchange_order_id order')]) in
    (self2, order', Py.Ok order').

End Orders.

(* ------------------------------------------------------------------ *)
(** ** strategy-engine/engine/event_bus.py                              *)
(* ------------------------------------------------------------------ *)

Module Bus.

(** ["*" in s] *)
Fixpoint has_star (s : string) : bool :=
  match s with
  | EmptyString => false
  | String c rest => Ascii.eqb c "*" || has_star rest
  end.

(** [s.split("*")[0]] *)
Fixpoint before_star (s : string) : string :=
  match s with
  | EmptyString => EmptyString
  | String c rest =>
      if Ascii.eqb c "*" then EmptyString else String c (before_star rest)
  end.

(** [EventBus._matches(channel, pattern)] *)
Definition _matches (channel pattern : string) : bool :=
  if negb (has_star pattern) then String.eqb channel pattern
  else String.prefix (before_star pattern) channel.

Section Dispatch.
(** [W] is whatever the handlers read and write, [json] the decoded
    payload, [json_loads] the decoder. *)
Variables W json : Type.
Variable json_loads : string -> Py.result json.

(** A handler: called with the payload, it changes the world and
    returns or raises.  Handlers do not touch the bus itself. *)
Definition Handler : Type := json -> W -> W * Py.result unit.

(** [handlers] in insertion order of the patterns. *)
Record EventBus : Type := {
  handlers : list (string * list Handler)
}.

(** The payload of an incoming message: raw bytes or already decoded. *)
Inductive payload : Type :=
| Bytes (raw : string)
| Decoded (j : json).

Record Message : Type := {
  channel : option string;
  data : option payload
}.

Fixpoint add_handler (pattern : string) (h : Handler)
    (hs : list (string * list Handler)) : list (string * list Handler) :=
  match hs with
  | [] => [(pattern, [h])]
  | (p, l) :: rest =>
      if String.eqb p pattern then (p, (l ++ [h])%list) :: rest
      else (p, l) :: add_handler pattern h rest
  end.

(** [subscribe(pattern, handler)], the registration part. *)
Definition subscribe (self : EventBus) (pattern : string) (h : Handler)
  : EventBus :=
  {| handlers := add_handler pattern h (handlers self) |}.

(** The body of [except Exception as e]: [pass], so the bus writes no
    log record for [e]. *)
Definition on_handler_error (e : Py.exn) : list string := [].

(** The inner loop: each handler in a [try]; an exception that is an
    [Exception] is caught, anything else ends the loop. *)
Fixpoint call_handlers (hs : list Handler) (d : json) (w : W)
    (log : list string) : W * list string * Py.result unit :=
  match hs with
  | [] => (w, log, Py.Ok tt)
  | h :: rest =>
      match h d w with
      | (w', Py.Ok _) => call_handlers rest d w' log
      | (w', Py.Raise e) =>
          if Py.is_Exception e
          then call_handlers rest d w' (log ++ on_handler_error e)%list
          else (w', log, Py.Raise e)
      end
  end.

(** The outer loop over [self.handlers.items()]. *)
Fixpoint dispatch (hs : list (string * list Handler)) (ch : string)
    (d : json) (w : W) (log : list string)
  : W * list string * Py.result unit :=
  match hs with
  | [] => (w, log, Py.Ok tt)
  | (pattern, l) :: rest =>
      if _matches ch ("xor:" ++ pattern) then
        match call_handlers l d w log with
        | (w', log', Py.Ok _) => dispatch rest ch d w' log'
        | r => r
        end
      else dispatch rest ch d w log
  end.

(** [_handle_message(message)] from world [w] and bus log [log]. *)
Definition _handle_message (self : EventBus) (m : Message) (w : W)
    (log : list string) : W * list string * Py.result unit :=
  let ch := match channel m with Some c => c | None => "" end in
  let decoded :=
    match data m with
    | Some (Decoded j) => Py.Ok j
    | Some (Bytes raw) => json_loads raw
    | None => json_loads ""
    end in
  match decoded with
  | Py.Raise e => (w, log, Py.Raise e)
  | Py.Ok d => dispatch (handlers self) ch d w log
  end.

(** The handlers that a channel selects, in calling order. *)
Definition matching (self : EventBus) (ch : string) : list Handler :=
  flat_map (fun ph => if _matches ch ("xor:" ++ fst ph) then snd ph else [])
           (handlers self).


End Dispatch.

End Bus.


(* ------------------------------------------------------------------ *)
(** ** Concrete values for the worked scenarios                         *)
(* ------------------------------------------------------------------ *)

(** A printer that shows every float as a placeholder. *)
Definition plain_printer : Py.printer :=
  {| Py.str_float := fun _ => "<float>"; Py.fixed := fun _ _ => "<float>" |}.

(** [RiskEngine()] after [calculate_portfolio_risk(10000)]. *)
Definition engine_at_peak : Risk.RiskEngine :=
  fst (Risk.calculate_portfolio_risk (Risk.init None) 0 10000%float).

(** The grid of the arithmetic scenario, before [initialize]. *)
Definition scenario_grid : Grid.GridStrategy :=
  Grid.init "BTCUSDT" None 110%float 100%float 10 1%float None.

Definition scenario_ticks : list Strategy.Tick :=
  map Strategy.tick
    [100; 101; 102; 99; 101; 103; 108; 110]%float.

(** A DCA strategy with a 2% take profit, its base order placed at 100 and
    filled for one unit. *)
Definition dca_after_base : DCA.DCAStrategy :=
  let s0 := DCA.initialize
              (DCA.init "BTCUSDT" 1%float 1%float (Some 3%Z) (Some 1%float)
                 (Some 1%float) (Some 1%float) (Some 2%float) None) in
  let s1 := fst (DCA.on_tick plain_printer s0 (Strategy.tick 100%float)) in
  fst (DCA.on_order_filled s1
         {| Strategy.fill_quantity := Some 1%float;
            Strategy.fill_price := Some 100%float |}).

Definition sample_order (st : Orders.OrderStatus) : Orders.Order :=
  {| Orders.id := "o-1";
     Orders.user_id := "u-1";
     Orders.bot_id := "b-1";
     Orders.exchange_order_id := Some "x-1";
     Orders.symbol := "BTCUSDT";
     Orders.status := st;
     Orders.quantity := 1%float;
     Orders.filled_quantity := 0%float;
     Orders.filled_at := None;
     Orders.cancelled_at := None |}.


(** Two handlers over a counter: one raises, one counts. *)
Definition failing_handler : Bus.Handler nat unit :=
  fun _ w => (w, Py.Raise (Py.RuntimeError "boom")).

Definition counting_handler : Bus.Handler nat unit :=
  fun _ w => (S w, Py.Ok tt).

Definition sample_bus : Bus.EventBus nat unit :=
  Bus.subscribe nat unit
    (Bus.subscribe nat unit {| Bus.handlers := [] |} "market.*" failing_handler)
    "market.*" counting_handler.

Definition sample_message : Bus.Message unit :=
  {| Bus.channel := Some "xor:market.tick";
     Bus.data := Some (Bus.Decoded unit tt) |}.

(* ------------------------------------------------------------------ *)
(** ** Runs of calls and bookkeeping read off the objects               *)
(* ------------------------------------------------------------------ *)

Module RiskBook.

(** [self.positions[symbol]] when the key is present. *)
Fixpoint lookup (k : string) (d : list (string * Risk.PositionRisk))
  : option Risk.PositionRisk :=
  match d with
  | [] => None
  | (k', v) :: rest => if String.eqb k' k then Some v else lookup k rest
  end.

(** The keys of the dict, in iteration order. *)
Definition keys (d : list (string * Risk.PositionRisk)) : list string :=
  map fst d.

(** The engine with another [max_open_positions]. *)
Definition with_max_open_positions (self : Risk.RiskEngine) (m : Z)
  : Risk.RiskEngine :=
  Risk.update_limits self
    {| Risk.max_drawdown_percent :=
         Risk.max_drawdown_percent (Risk.limits self);
       Risk.max_position_size_percent :=
         Risk.max_position_size_percent (Risk.limits self);
       Risk.daily_loss_limit_percent :=
         Risk.daily_loss_limit_percent (Risk.limits self);
       Risk.max_leverage := Risk.max_leverage (Risk.limits self);
       Risk.max_open_positions := m;
       Risk.max_correlation := Risk.max_correlation (Risk.limits self);
       Risk.max_exposure_per_asset :=
         Risk.max_exposure_per_asset (Risk.limits self) |}.

(** The equities reported to [calculate_portfolio_risk] in a run. *)
Definition reported (cs : list Risk.call) : list float :=
  flat_map (fun c => match c with
                     | Risk.CalculatePortfolioRisk _ e => [e]
                     | _ => []
                     end) cs.

End RiskBook.

Module KillRun.

(** The calls made on one kill switch. *)
Inductive call : Type :=
| Activate (now : Z) (t : Kill.KillSwitchTrigger) (why : string)
    (bot_ids : option (list string))
| Deactivate (confirmation_code : option string)
| CheckConditions (now : Z)
    (current_drawdown max_drawdown daily_loss max_daily_loss : float)
    (exchange_healthy : bool).

(** The switch after one call (a [deactivate] that raises changes nothing). *)
Definition step (pr : Py.printer) (self : Kill.KillSwitch) (c : call)
  : Kill.KillSwitch :=
  match c with
  | Activate now t why bots => fst (Kill.activate self now t why bots)
  | Deactivate code => fst (Kill.deactivate self code)
  | CheckConditions now dd mdd dl mdl healthy =>
      fst (Kill.check_conditions pr self now dd mdd dl mdl healthy)
  end.

Definition run (pr : Py.printer) (self : Kill.KillSwitch) (cs : list call)
  : Kill.KillSwitch :=
  fold_left (step pr) cs self.

End KillRun.

Module GridRun.

(** Levels that have not fired yet. *)
Definition active (ls : list Grid.GridLevel) : nat :=
  List.length (filter (fun l => negb (Grid.is_filled l)) ls).

(** How many ticks of a run returned a signal. *)
Definition signals (rs : list (option Strategy.Signal)) : nat :=
  List.length (Grid.emitted rs).

End GridRun.

Module DCARun.
Import Strategy.

(** Safety orders already fired. *)
Definition filled (sos : list DCA.SafetyOrder) : nat :=
  List.length (filter DCA.is_filled sos).

(** A signal built by [safety_signal]: its [indicators] start with
    ["order_type": "safety"]. *)
Definition is_safety (s : Signal) : bool :=
  match indicators s with
  | (_, IStr k) :: _ => String.eqb k "safety"
  | _ => false
  end.

(** A signal built by [base_signal]. *)
Definition is_base (s : Signal) : bool :=
  match indicators s with
  | (_, IStr k) :: _ => String.eqb k "base"
  | _ => false
  end.

(** Ticks delivered one after the other; a tick that raises leaves the
    strategy as the raise left it.  The list holds what each tick returned
    ([None] also for a tick that raised). *)
Fixpoint on_ticks (pr : Py.printer) (self : DCA.DCAStrategy)
    (ts : list Tick) : DCA.DCAStrategy * list (option Signal) :=
  match ts with
  | [] => (self, [])
  | t :: rest =>
      let r := DCA.on_tick pr self t in
      let out := match snd r with
                 | Py.Ok o => o
                 | Py.Raise _ => None
                 end in
      let r' := on_ticks pr (fst r) rest in
      (fst r', out :: snd r')
  end.

(** How many of the returned signals satisfy [f]. *)
Definition count (f : Signal -> bool) (rs : list (option Signal)) : nat :=
  List.length (filter (fun r => match r with
                                | Some s => f s
                                | None => false
                                end) rs).

(** What a call of [on_tick] returned, [None] when it raised. *)
Definition output (x : DCA.DCAStrategy * Py.result (option Signal))
  : option Signal :=
  match snd x with
  | Py.Ok o => o
  | Py.Raise _ => None
  end.

(** 1 when the returned signal satisfies [f], 0 otherwise. *)
Definition one_if (f : Signal -> bool) (o : option Signal) : nat :=
  match o with
  | Some s => Nat.b2n (f s)
  | None => 0
  end.

(** The books of one tick: the ladder keeps its length, the number of
    filled rungs grows by the safety signals returned, and the base-order
    flag by the base signals returned. *)
Definition balanced (self : DCA.DCAStrategy)
    (x : DCA.DCAStrategy * Py.result (option Signal)) : Prop :=
  List.length (DCA.safety_orders (fst x))
  = List.length (DCA.safety_orders self)
  /\ filled (DCA.safety_orders (fst x))
     = filled (DCA.safety_orders self) + one_if is_safety (output x)
  /\ Nat.b2n (DCA.base_order_filled (fst x))
     = Nat.b2n (DCA.base_order_filled self) + one_if is_base (output x).

End DCARun.

(* ------------------------------------------------------------------ *)
(** ** backend/app/services/order_service.py and api/v1/orders.py:
       the operations around [cancel_order]                            *)
(* ------------------------------------------------------------------ *)

Module OrderOps.
Import Orders.

(** [c.upper()] on ASCII letters (symbols are ASCII tickers). *)
Definition upper_ascii (c : ascii) : ascii :=
  let n := nat_of_ascii c in
  if (97 <=? n)%nat && (n <=? 122)%nat then ascii_of_nat (n - 32) else c.

Fixpoint upper (s : string) : string :=
  match s with
  | EmptyString => EmptyString
  | String c rest => String (upper_ascii c) (upper rest)
  end.

(** The session's view of the [orders] table: its rows, in any order, one
    per primary key. *)
Definition Table : Type := list Order.

(** [db.get(Order, order_id)] *)
Definition get (t : Table) (order_id : string) : option Order :=
  find (fun o => String.eqb (id o) order_id) t.

(** [OrderService.get_by_id(order_id, user_id)] *)
Definition get_by_id (t : Table) (order_id uid : string) : option Order :=
  match get t order_id with
  | Some o => if String.eqb (user_id o) uid then Some o else None
  | None => None
  end.



(** The columns [update_order_status] writes besides those of [Order]. *)
Record Fill : Type := {
  order : Order;
  average_price : option float;
  fee : float
}.




(** What the HTTP route answers. *)
Inductive response : Type :=
| Message (text : string)
| HTTPException (status_code : Z) (detail : string).

(** Replace the row with the key of [o]. *)
Definition put (t : Table) (o : Order) : Table :=
  map (fun r => if String.eqb (id r) (id o) then o else r) t.

(** The route [POST /{order_id}/cancel] for the authenticated user
    [current_user]: the table it leaves and its answer. *)
Definition cancel_route (t : Table) (order_id current_user : string)
  : Table * response :=
  match get t order_id with
  | None => (t, HTTPException 404 "Order not found")
  | Some o =>
      if negb (String.eqb (user_id o) current_user)
      then (t, HTTPException 404 "Order not found")
      else if negb (is_open o)
      then (t, HTTPException 400 "Order is not open")
      else
        (put t {| id := id o;
                  user_id := user_id o;
                  bot_id := bot_id o;
                  exchange_order_id := exchange_order_id o;
                  symbol := symbol o;
                  status := CANCELLED;
                  quantity := quantity o;
                  filled_quantity := filled_quantity o;
                  filled_at := filled_at o;
                  cancelled_at := cancelled_at o |},
         Message "Order cancelled")
  end.

End OrderOps.

(* ------------------------------------------------------------------ *)
(** ** backend/app/api/deps.py: pagination                              *)
(* ------------------------------------------------------------------ *)

Module Paging.

Record Pagination : Type := {
  page : Z;
  page_size : Z;
  offset : Z
}.

(** [Pagination(page, page_size, max_page_size)] *)
Definition init (p ps max_page_size : Z) : Pagination :=
  let p' := Z.max 1 p in
  let ps' := Z.min (Z.max 1 ps) max_page_size in
  {| page := p'; page_size := ps'; offset := (p' - 1) * ps' |}.

(** [get_pagination(page, page_size)] *)
Definition get_pagination (p ps : Z) : Pagination := init p ps 100.

End Paging.

(* ------------------------------------------------------------------ *)
(** ** backend/app/core/events.py: patterns and the handler registry    *)
(* ------------------------------------------------------------------ *)

Module BackendBus.

(** [s.split("*")[1:]] joined back: what follows the first star. *)
Fixpoint after_star (s : string) : string :=
  match s with
  | EmptyString => EmptyString
  | String c rest => if Ascii.eqb c "*" then rest else after_star rest
  end.

(** [s.endswith(suffix)] *)
Definition endswith (s suffix : string) : bool :=
  (String.length suffix <=? String.length s)%nat
  && String.eqb
       (String.substring (String.length s - String.length suffix)
          (String.length suffix) s)
       suffix.

(** [EventBus._matches_pattern(event_type, pattern)] *)
Definition _matches_pattern (event_type pattern : string) : bool :=
  if String.eqb pattern "*" then true
  else if negb (Bus.has_star pattern) then String.eqb event_type pattern
  else if negb (Bus.has_star (after_star pattern))
  then String.prefix (Bus.before_star pattern) event_type
       && endswith event_type (after_star pattern)
  else String.prefix (Bus.before_star pattern) event_type.

(** The registry [_handlers]: per pattern, in insertion order, the
    handlers subscribed to it.  A handler is known by its identity. *)
Definition Registry : Type := list (string * list nat).

Fixpoint subscribe (r : Registry) (event_type : string) (h : nat)
  : Registry :=
  match r with
  | [] => [(event_type, [h])]
  | (p, l) :: rest =>
      if String.eqb p event_type then (p, (l ++ [h])%list) :: rest
      else (p, l) :: subscribe rest event_type h
  end.

(** [l.remove(h)]: without the first occurrence, [None] when there is
    none ([ValueError]). *)
Fixpoint remove_first (h : nat) (l : list nat) : option (list nat) :=
  match l with
  | [] => None
  | x :: rest =>
      if Nat.eqb x h then Some rest
      else match remove_first h rest with
           | Some rest' => Some (x :: rest')
           | None => None
           end
  end.

(** [unsubscribe(event_type, handler)] *)
Fixpoint unsubscribe (r : Registry) (event_type : string) (h : nat)
  : Py.result Registry :=
  match r with
  | [] => Py.Ok []
  | (p, l) :: rest =>
      if String.eqb p event_type then
        match remove_first h l with
        | None => Py.Raise (Py.ValueError "list.remove(x): x not in list")
        | Some [] => Py.Ok rest
        | Some l' => Py.Ok ((p, l') :: rest)
        end
      else
        match unsubscribe rest event_type h with
        | Py.Ok rest' => Py.Ok ((p, l) :: rest')
        | Py.Raise e => Py.Raise e
        end
  end.

End BackendBus.

(* ------------------------------------------------------------------ *)
(** ** strategy-engine/engine/strategies/base.py: the candle buffer     *)
(* ------------------------------------------------------------------ *)

Module Candles.
Section Buffer.
Variable candle : Type.

(** [l[-n:]] for a positive [n]. *)
Definition last_n (n : nat) (l : list candle) : list candle :=
  skipn (List.length l - n) l.

(** [BaseStrategy.on_candle]: what [self.candles] becomes. *)
Definition on_candle (candles : list candle) (c : candle) : list candle :=
  let appended := (candles ++ [c])%list in
  if (500 <? List.length appended)%nat then last_n 500 appended
  else appended.

Definition on_candles (candles cs : list candle) : list candle :=
  fold_left on_candle cs candles.
End Buffer.
End Candles.

(* ------------------------------------------------------------------ *)
(** ** strategy-engine/engine/core.py: the strategy host                *)
(* ------------------------------------------------------------------ *)

Module Engine.
Import Strategy.

(** [signal.type.value] *)
Definition type_value (t : SignalType) : string :=
  match t with
  | BUY => "buy"
  | SELL => "sell"
  | CLOSE_LONG => "close_long"
  | CLOSE_SHORT => "close_short"
  | HOLD => "hold"
  end.

(** The log lines of the engine. *)
Definition registered_msg (bot_id name : string) : string :=
  "Strategy registered for bot " ++ bot_id ++ ": " ++ name.

Definition unregistered_msg (bot_id : string) : string :=
  "Strategy unregistered for bot " ++ bot_id.

Definition emitted_msg (bot_id : string) (t : SignalType) : string :=
  "Signal emitted for " ++ bot_id ++ ": " ++ type_value t.

Definition error_msg (bot_id err : string) : string :=
  "Strategy error for " ++ bot_id ++ ": " ++ err.

Section Host.
(** [S] is the state of a strategy object, [D] the payload of a market
    event.  The engine only uses the methods of [BaseStrategy]. *)
Variables S D : Type.

Record Methods : Type := {
  symbol_of : S -> string;
  name_of : S -> string;
  initialize : S -> S * Py.result unit;
  cleanup : S -> S * Py.result unit;
  on_tick : S -> D -> S * Py.result (option Signal);
  on_candle : S -> D -> S * Py.result (option Signal);
  on_orderbook : S -> D -> S * Py.result (option Signal)
}.

Variable m : Methods.
(** [str(e)] for an exception. *)
Variable str_exn : Py.exn -> string.

(** The engine: [strategies] keyed by bot id in insertion order, what was
    published on "bot.signal" (bot id and signal), and the log lines.
    Publishing is assumed to succeed. *)
Record StrategyEngine : Type := {
  strategies : list (string * S);
  published : list (string * Signal);
  log : list string
}.

(** A market event: its ["type"], and in ["data"] the ["symbol"] and the
    payload handed to the strategy. *)
Record MarketEvent : Type := {
  event_type : option string;
  event_symbol : option string;
  event_data : D
}.

Fixpoint setitem (k : string) (v : S) (d : list (string * S))
  : list (string * S) :=
  match d with
  | [] => [(k, v)]
  | (k', v') :: rest =>
      if String.eqb k' k then (k', v) :: rest
      else (k', v') :: setitem k v rest
  end.

Fixpoint getitem (k : string) (d : list (string * S)) : option S :=
  match d with
  | [] => None
  | (k', v) :: rest => if String.eqb k' k then Some v else getitem k rest
  end.

Definition delitem (k : string) (d : list (string * S))
  : list (string * S) :=
  filter (fun kv => negb (String.eqb (fst kv) k)) d.

(** [register_strategy(bot_id, strategy)]: the strategy is stored before
    it is initialised, so it stays stored when [initialize] raises. *)
Definition register_strategy (self : StrategyEngine) (bot_id : string)
    (s : S) : StrategyEngine * Py.result unit :=
  match initialize m s with
  | (s', Py.Ok _) =>
      ({| strategies := setitem bot_id s' (strategies self);
          published := published self;
          log := (log self ++ [registered_msg bot_id (name_of m s')])%list |},
       Py.Ok tt)
  | (s', Py.Raise e) =>
      ({| strategies := setitem bot_id s' (strategies self);
          published := published self;
          log := log self |},
       Py.Raise e)
  end.

(** [unregister_strategy(bot_id)] *)
Definition unregister_strategy (self : StrategyEngine) (bot_id : string)
  : StrategyEngine * Py.result unit :=
  match getitem bot_id (strategies self) with
  | None => (self, Py.Ok tt)
  | Some s =>
      match cleanup m s with
      | (_, Py.Ok _) =>
          ({| strategies := delitem bot_id (strategies self);
              published := published self;
              log := (log self ++ [unregistered_msg bot_id])%list |},
           Py.Ok tt)
      | (s', Py.Raise e) =>
          ({| strategies := setitem bot_id s' (strategies self);
              published := published self;
              log := log self |},
           Py.Raise e)
      end
  end.

(** The callback chosen by the event type; any other type gives no
    signal and leaves the strategy alone. *)
Definition callback (ty : string) (s : S) (d : D)
  : S * Py.result (option Signal) :=
  if String.eqb ty "market.tick" then on_tick m s d
  else if String.eqb ty "market.kline" then on_candle m s d
  else if String.eqb ty "market.orderbook" then on_orderbook m s d
  else (s, Py.Ok None).

(** The loop of [_on_market_event] over [self.strategies.items()]: the
    entries after the loop, what was published and logged, and the
    exception that left the loop, if any. *)
Fixpoint serve (ty sym : string) (d : D) (entries : list (string * S))
    (pub : list (string * Signal)) (lg : list string)
  : list (string * S) * list (string * Signal) * list string
    * Py.result unit :=
  match entries with
  | [] => ([], pub, lg, Py.Ok tt)
  | (bot_id, s) :: rest =>
      if String.eqb (symbol_of m s) sym then
        match callback ty s d with
        | (s', Py.Ok (Some sig)) =>
            let '(rest', pub', lg', r) :=
              serve ty sym d rest
                (pub ++ [(bot_id, sig)])%list
                (lg ++ [emitted_msg bot_id (type sig)])%list in
            ((bot_id, s') :: rest', pub', lg', r)
        | (s', Py.Ok None) =>
            let '(rest', pub', lg', r) := serve ty sym d rest pub lg in
            ((bot_id, s') :: rest', pub', lg', r)
        | (s', Py.Raise e) =>
            if Py.is_Exception e then
              let '(rest', pub', lg', r) :=
                serve ty sym d rest pub
                  (lg ++ [error_msg bot_id (str_exn e)])%list in
              ((bot_id, s') :: rest', pub', lg', r)
            else ((bot_id, s') :: rest, pub, lg, Py.Raise e)
        end
      else
        let '(rest', pub', lg', r) := serve ty sym d rest pub lg in
        ((bot_id, s) :: rest', pub', lg', r)
  end.

(** [_on_market_event(event)] *)
Definition _on_market_event (self : StrategyEngine) (ev : MarketEvent)
  : StrategyEngine * Py.result unit :=
  let ty := match event_type ev with Some t => t | None => "" end in
  if negb (Py.truthy_str (event_symbol ev)) then (self, Py.Ok tt)
  else
    let '(entries, pub, lg, r) :=
      serve ty (Py.str_opt (event_symbol ev)) (event_data ev)
        (strategies self) (published self) (log self) in
    ({| strategies := entries; published := pub; log := lg |}, r).

(** A strategy whose callbacks, on this payload, return or raise an
    [Exception]. *)
Definition well_behaved (ty : string) (d : D) (s : S) : Prop :=
  match snd (callback ty s d) with
  | Py.Ok _ => True
  | Py.Raise e => Py.is_Exception e = true
  end.

(** One entry after an event for the symbol [sym]. *)
Definition served (ty sym : string) (d : D) (kv : string * S)
  : string * S :=
  if String.eqb (symbol_of m (snd kv)) sym
  then (fst kv, fst (callback ty (snd kv) d))
  else kv.

(** The signals entries returned for the event, with their bot ids. *)
Definition signals_of (ty sym : string) (d : D)
    (entries : list (string * S)) : list (string * Signal) :=
  flat_map (fun kv =>
              if String.eqb (symbol_of m (snd kv)) sym then
                match snd (callback ty (snd kv) d) with
                | Py.Ok (Some sig) => [(fst kv, sig)]
                | _ => []
                end
              else []) entries.
(** The log lines the event leaves: one per signal emitted, one per
    strategy error. *)
Definition lines_of (ty sym : string) (d : D)
    (entries : list (string * S)) : list string :=
  flat_map (fun kv =>
              if String.eqb (symbol_of m (snd kv)) sym then
                match snd (callback ty (snd kv) d) with
                | Py.Ok (Some sig) => [emitted_msg (fst kv) (type sig)]
                | Py.Ok None => []
                | Py.Raise e => [error_msg (fst kv) (str_exn e)]
                end
              else []) entries.
End Host.

(** The strategies of this repository as hosted objects: the strategy
    state with the candle buffer and the order book snapshot of the base
    class. *)
Inductive variant : Type :=
| AGrid (g : Grid.GridStrategy)
| ADCA (s : DCA.DCAStrategy).

Record Hosted : Type := {
  strat : variant;
  candles : list Tick;
  orderbook : option Tick
}.

Definition hosted_methods (pr : Py.printer)
    (pow : float -> float -> Py.result float) : Methods Hosted Tick :=
  {| symbol_of := fun h =>
       match strat h with
       | AGrid g => Grid.symbol g
       | ADCA s => DCA.symbol s
       end;
     name_of := fun h =>
       match strat h with
       | AGrid _ => "Grid Trading"
       | ADCA _ => "DCA"
       end;
     initialize := fun h =>
       match strat h with
       | AGrid g =>
           let r := Grid.initialize pow g in
           ({| strat := AGrid (fst r); candles := candles h;
               orderbook := orderbook h |}, snd r)
       | ADCA s =>
           ({| strat := ADCA (DCA.initialize s); candles := candles h;
               orderbook := orderbook h |}, Py.Ok tt)
       end;
     cleanup := fun h =>
       match strat h with
       | AGrid g =>
           ({| strat := AGrid (Grid.set_levels g false (Grid.grid_levels g));
               candles := candles h; orderbook := orderbook h |}, Py.Ok tt)
       | ADCA s =>
           ({| strat :=
                 ADCA (DCA.with_state s false (DCA.current_price s)
                         (DCA.entry_price s) (DCA.safety_orders s)
                         (DCA.base_order_filled s) (DCA.average_entry s)
                         (DCA.total_quantity s) (DCA.total_invested s));
               candles := candles h; orderbook := orderbook h |}, Py.Ok tt)
       end;
     on_tick := fun h t =>
       match strat h with
       | AGrid g =>
           let r := Grid.on_tick pr g t in
           ({| strat := AGrid (fst r); candles := candles h;
               orderbook := orderbook h |}, Py.Ok (snd r))
       | ADCA s =>
           let r := DCA.on_tick pr s t in
           ({| strat := ADCA (fst r); candles := candles h;
               orderbook := orderbook h |}, snd r)
       end;
     on_candle := fun h c =>
       ({| strat := strat h;
           candles := Candles.on_candle Tick (candles h) c;
           orderbook := orderbook h |}, Py.Ok None);
     on_orderbook := fun h ob =>
       ({| strat := strat h; candles := candles h; orderbook := Some ob |},
        Py.Ok None) |}.

End Engine.

(* ------------------------------------------------------------------ *)
(** ** Order facts about binary64 comparisons                           *)
(* ------------------------------------------------------------------ *)

Lemma SFcompare_swap (x y : spec_float) :
  SFcompare y x = option_map CompOpp (SFcompare x y).
Proof.
  destruct x as [sx|sx| |sx mx ex], y as [sy|sy| |sy my ey]; simpl;
    try reflexivity;
    try (destruct sx; reflexivity); try (destruct sy; reflexivity);
    try (destruct sx, sy; reflexivity).
  destruct sx, sy; simpl; try reflexivity;
    rewrite (Z.compare_antisym ex ey); destruct (ex ?= ey)%Z; simpl;
    try reflexivity;
    rewrite (Pos.compare_cont_antisym mx my Eq); simpl;
    try rewrite CompOpp_involutive; reflexivity.
Qed.

Lemma SFcompare_Lt_trans (x y z : spec_float) :
  SFcompare x y = Some Lt -> SFcompare y z = Some Lt ->
  SFcompare x z = Some Lt.
Proof.
  destruct x as [sx|sx| |sx mx ex], y as [sy|sy| |sy my ey],
           z as [sz|sz| |sz mz ez]; simpl;
    try discriminate; try reflexivity;
    try (destruct sx; simpl; try discriminate; try reflexivity);
    try (destruct sy; simpl; try discriminate; try reflexivity);
    try (destruct sz; simpl; try discriminate; try reflexivity).
  all: change (Pos.compare_cont Eq mx my) with (mx ?= my)%positive;
       change (Pos.compare_cont Eq my mz) with (my ?= mz)%positive;
       change (Pos.compare_cont Eq mx mz) with (mx ?= mz)%positive;
       destruct (Z.compare_spec ex ey), (Z.compare_spec ey ez),
         (Z.compare_spec ex ez); try discriminate; try lia; try reflexivity;
       destruct (Pos.compare_spec mx my), (Pos.compare_spec my mz),
         (Pos.compare_spec mx mz); simpl; try discriminate; try lia;
       reflexivity.
Qed.

Lemma float_lt_asym (a b : float) :
  PrimFloat.ltb a b = true -> PrimFloat.ltb b a = false.
Proof.
  rewrite !ltb_spec. unfold SFltb. rewrite (SFcompare_swap (Prim2SF a)).
  destruct (SFcompare (Prim2SF a) (Prim2SF b)) as [[]|]; simpl; congruence.
Qed.

Lemma float_lt_irrefl (a : float) : PrimFloat.ltb a a = false.
Proof.
  destruct (PrimFloat.ltb a a) eqn:E; [|reflexivity].
  pose proof (float_lt_asym _ _ E). congruence.
Qed.

Lemma float_le_not_gt (a b : float) :
  PrimFloat.leb a b = true -> PrimFloat.ltb b a = false.
Proof.
  rewrite leb_spec, ltb_spec. unfold SFleb, SFltb.
  rewrite (SFcompare_swap (Prim2SF a)).
  destruct (SFcompare (Prim2SF a) (Prim2SF b)) as [[]|]; simpl; congruence.
Qed.

Lemma float_lt_trans (a b c : float) :
  PrimFloat.ltb a b = true -> PrimFloat.ltb b c = true ->
  PrimFloat.ltb a c = true.
Proof.
  rewrite !ltb_spec. unfold SFltb. intros H1 H2.
  rewrite (SFcompare_Lt_trans (Prim2SF a) (Prim2SF b) (Prim2SF c)); auto.
  - destruct (SFcompare (Prim2SF a) (Prim2SF b)) as [[]|]; congruence.
  - destruct (SFcompare (Prim2SF b) (Prim2SF c)) as [[]|]; congruence.
Qed.

(* ------------------------------------------------------------------ *)
(** ** Risk engine: order validation                                    *)
(* ------------------------------------------------------------------ *)





(** C9.  With [portfolio_value == 0] the position-size percentage is 0, so
    the position-size check passes whatever the quantity and the price
    (the limit being a percentage, not negative); with the kill switch off,
    the leverage within its limit, fewer open symbols than allowed, and
    [starting_equity_today] and [peak_equity] at 0, the order is valid. *)
Theorem validate_order_zero_portfolio :
  forall (pr : Py.printer) (self : Risk.RiskEngine) (sym sd : string)
         (quantity price lev pv : float),
    Py.eq pv 0%float = true ->
    Risk.position_size_percent quantity price pv = 0%float
    /\ (Py.le 0%float (Risk.max_position_size_percent (Risk.limits self))
          = true ->
        Py.gt (Risk.position_size_percent quantity price pv)
              (Risk.max_position_size_percent (Risk.limits self)) = false)
    /\ (Risk.is_killed self = false ->
        Py.le lev (Py.float_of_int (Risk.max_leverage (Risk.limits self)))
          = true ->
        Py.le 0%float (Risk.max_position_size_percent (Risk.limits self))
          = true ->
        (Risk.len (Risk.positions self)
           < Risk.max_open_positions (Risk.limits self))%Z ->
        Py.eq (Risk.starting_equity_today self) 0%float = true ->
        Py.eq (Risk.peak_equity self) 0%float = true ->
        Risk.validate_order pr self sym sd quantity price lev pv
          = {| Risk.valid := true; Risk.reason := None |}).
Proof.
  intros pr self sym sd quantity price lev pv Hpv.
  assert (Hpct : Risk.position_size_percent quantity price pv = 0%float).
  { unfold Risk.position_size_percent, Py.truthy.
    unfold Py.eq in Hpv. rewrite Hpv. reflexivity. }
  split; [exact Hpct|]. split.
  - intros Hlim. rewrite Hpct. apply float_le_not_gt. exact Hlim.
  - intros Hk Hlev Hlim Hopen Hstart Hpeak.
    unfold Risk.validate_order. rewrite Hk, Hpct.
    unfold Py.gt. rewrite (float_le_not_gt _ _ Hlev).
    rewrite (float_le_not_gt _ _ Hlim).
    replace (Risk.len (Risk.positions self)
               >=? Risk.max_open_positions (Risk.limits self))%Z
      with false by (symmetry; rewrite Z.geb_leb; apply Z.leb_gt; exact Hopen).
    unfold Risk._check_daily_loss_exceeded, Risk._check_max_drawdown_exceeded.
    rewrite Hstart, Hpeak. reflexivity.
Qed.

Lemma validate_order_zero_portfolio_witness :
  Risk.position_size_percent 1000000%float 1000000%float 0%float = 0%float
  /\ Risk.validate_order plain_printer (Risk.init None) "BTCUSDT" "buy"
       1000000%float 1000000%float 10%float 0%float
     = {| Risk.valid := true; Risk.reason := None |}.
Proof.
  destruct (validate_order_zero_portfolio plain_printer (Risk.init None)
              "BTCUSDT" "buy" 1000000%float 1000000%float 10%float 0%float
              eq_refl) as [H0 [_ H]].
  split; [exact H0|].
  apply H; try reflexivity.
Defined.

(* ------------------------------------------------------------------ *)
(** ** Risk engine: the kill-switch latch                               *)
(* ------------------------------------------------------------------ *)

Lemma step_keeps_latch (self : Risk.RiskEngine) (c : Risk.call) :
  Risk.is_killed self = true -> Risk.is_reset c = false ->
  Risk.is_killed (Risk.step self c) = true.
Proof.
  intros Hk Hc. destruct c; simpl in *; try assumption; try reflexivity;
    try discriminate.
  - unfold Risk.update_position.
    destruct (Py.eq sz 0%float).
    + simpl. destruct (Risk.mem sym (Risk.positions self)); assumption.
    + unfold Py.bind, Py.truediv.
      destruct (PrimFloat.eqb _ 0%float); simpl; assumption.
  - unfold Risk.calculate_portfolio_risk. simpl.
    destruct (Py.gt equity (Risk.peak_equity self)); assumption.
Qed.

(** X1.  Once killed, the engine stays killed over every run of calls that
    contains no [reset_kill_switch], and refuses every order. *)
Lemma kill_switch_latched (pr : Py.printer) (cs : list Risk.call) :
  forall (self : Risk.RiskEngine),
    Risk.is_killed self = true ->
    forallb (fun c => negb (Risk.is_reset c)) cs = true ->
    Risk.is_killed (Risk.run self cs) = true
    /\ forall sym sd quantity price lev pv,
         Risk.validate_order pr (Risk.run self cs) sym sd quantity price lev pv
         = Risk.reject (Risk.kill_switch_msg (Risk.run self cs)).
Proof.
  induction cs as [|c cs IH]; intros self Hk Hcs.
  - split; [exact Hk|]. intros. unfold Risk.validate_order. simpl.
    rewrite Hk. reflexivity.
  - simpl in Hcs. apply andb_prop in Hcs. destruct Hcs as [Hc Hcs].
    apply negb_true_iff in Hc.
    exact (IH (Risk.step self c) (step_keeps_latch self c Hk Hc) Hcs).
Qed.

(** C2.  The latch holds (see [kill_switch_latched]) but it is released by
    [reset_kill_switch()], which takes no confirmation code: after
    [trigger_kill_switch] an order is refused, and after a bare
    [reset_kill_switch()] the same order is accepted. *)
Theorem reset_kill_switch_takes_no_confirmation :
  let killed := Risk.trigger_kill_switch (Risk.init None) "manual stop" in
  Risk.validate_order plain_printer killed "BTCUSDT" "buy"
    1%float 100%float 1%float 10000%float
  = Risk.reject "Kill switch active: manual stop"
  /\ Risk.validate_order plain_printer (Risk.reset_kill_switch killed)
       "BTCUSDT" "buy" 1%float 100%float 1%float 10000%float
     = {| Risk.valid := true; Risk.reason := None |}.
Proof. split; reflexivity. Qed.

(* ------------------------------------------------------------------ *)
(** ** Risk engine: peak equity                                         *)
(* ------------------------------------------------------------------ *)

Lemma not_below_refl (a : float) : Risk.not_below a a.
Proof. left. reflexivity. Qed.

Lemma not_below_trans (a b c : float) :
  Risk.not_below a b -> Risk.not_below b c -> Risk.not_below a c.
Proof.
  unfold Risk.not_below, Py.gt. intros [->|H1] [->|H2]; auto.
  right. exact (float_lt_trans a b c H1 H2).
Qed.

Lemma not_below_not_lt (a b : float) : Risk.not_below a b -> Py.lt b a = false.
Proof.
  unfold Risk.not_below, Py.gt, Py.lt. intros [->|H].
  - apply float_lt_irrefl.
  - apply float_lt_asym. exact H.
Qed.

Lemma step_peak_equity (self : Risk.RiskEngine) (c : Risk.call) :
  Risk.not_below (Risk.peak_equity self) (Risk.peak_equity (Risk.step self c)).
Proof.
  destruct c; simpl; try apply not_below_refl.
  - unfold Risk.update_position.
    destruct (Py.eq sz 0%float).
    + destruct (Risk.mem sym (Risk.positions self)); apply not_below_refl.
    + unfold Py.bind, Py.truediv.
      destruct (PrimFloat.eqb _ 0%float); apply not_below_refl.
  - unfold Risk.calculate_portfolio_risk. simpl.
    destruct (Py.gt equity (Risk.peak_equity self)) eqn:E.
    + right. exact E.
    + apply not_below_refl.
Qed.

(** C7.  Over every sequence of the public operations on one engine,
    [peak_equity] never goes down: after the sequence it is the value it
    had before or a strictly greater one, and so it is never smaller. *)
Theorem peak_equity_monotone :
  forall (cs : list Risk.call) (self : Risk.RiskEngine),
    Risk.not_below (Risk.peak_equity self) (Risk.peak_equity (Risk.run self cs))
    /\ Py.lt (Risk.peak_equity (Risk.run self cs)) (Risk.peak_equity self)
       = false.
Proof.
  assert (H : forall cs self,
             Risk.not_below (Risk.peak_equity self)
                       (Risk.peak_equity (Risk.run self cs))).
  { induction cs as [|c cs IH]; intros self.
    - apply not_below_refl.
    - simpl. eapply not_below_trans; [apply step_peak_equity | apply IH]. }
  intros cs self. split; [apply H | apply not_below_not_lt, H].
Qed.

(* ------------------------------------------------------------------ *)
(** ** Kill switch                                                      *)
(* ------------------------------------------------------------------ *)




(** C10.  [deactivate] raises [ValueError] and changes nothing when the
    confirmation code is [None] or empty; for every other string, whatever
    it is, it switches the kill switch off and clears [affected_bots]. *)
Theorem deactivate_only_tests_presence :
  forall (self : Kill.KillSwitch),
    (forall code, code = None \/ code = Some "" ->
       Kill.deactivate self code
       = (self,
          Py.Raise (Py.ValueError "Confirmation required to reset kill switch")))
    /\ (forall code, code <> "" ->
          Kill.deactivate self (Some code)
          = ({| Kill.is_active := false;
                Kill.events := Kill.events self;
                Kill.affected_bots := [] |},
             Py.Ok tt)).
Proof.
  intros self. split.
  - intros code [-> | ->]; reflexivity.
  - intros code Hne. unfold Kill.deactivate. simpl.
    destruct (String.eqb_spec code ""); [contradiction|]. reflexivity.
Qed.

Lemma deactivate_only_tests_presence_witness :
  let active := fst (Kill.activate Kill.init 0 Kill.MANUAL "stop"
                       (Some ["bot-1"])) in
  Kill.deactivate active None
  = (active,
     Py.Raise (Py.ValueError "Confirmation required to reset kill switch"))
  /\ Kill.is_active (fst (Kill.deactivate active (Some "anything"))) = false
  /\ Kill.affected_bots (fst (Kill.deactivate active (Some "anything"))) = [].
Proof.
  intros active.
  destruct (deactivate_only_tests_presence active) as [H1 H2].
  split; [ exact (H1 None (or_introl eq_refl)) |].
  assert (Hne : "anything" <> "") by discriminate.
  rewrite (H2 "anything" Hne). split; reflexivity.
Defined.

(* ------------------------------------------------------------------ *)
(** ** Grid strategy                                                    *)
(* ------------------------------------------------------------------ *)

Lemma geometric_levels_ok pow lower ratio idx ls :
  Grid.geometric_levels pow lower ratio idx = Py.Ok ls ->
  Forall Grid.level_ok ls.
Proof.
  revert ls. induction idx as [|i idx IH]; simpl; intros ls H.
  - injection H as <-. constructor.
  - destruct (pow ratio (Py.float_of_int i)); simpl in H; [|discriminate].
    destruct (Grid.geometric_levels pow lower ratio idx); simpl in H;
      [|discriminate].
    injection H as <-. constructor; [reflexivity | apply IH; reflexivity].
Qed.

Lemma build_grid_ok pow self ls :
  Grid._build_grid pow self = Py.Ok ls -> Forall Grid.level_ok ls.
Proof.
  unfold Grid._build_grid. destruct (String.eqb _ _).
  - destruct (Py.truediv _ _); simpl; [|discriminate].
    intros H. injection H as <-. apply Forall_forall.
    intros l Hl. apply in_map_iff in Hl. destruct Hl as [i [<- _]].
    reflexivity.
  - destruct (Py.truediv _ _); simpl; [|discriminate].
    destruct (Py.truediv _ _); simpl; [|discriminate].
    destruct (pow _ _); simpl; [|discriminate].
    apply geometric_levels_ok.
Qed.

Lemma initialize_levels_ok pow self :
  Forall Grid.level_ok (Grid.grid_levels (fst (Grid.initialize pow self))).
Proof.
  unfold Grid.initialize. destruct (Grid._build_grid pow self) eqn:E; simpl.
  - exact (build_grid_ok pow self a E).
  - constructor.
Qed.

Lemma scan_only_buys pr self p levels :
  Forall Grid.level_ok levels ->
  Forall Grid.level_ok (fst (Grid.scan pr self p levels))
  /\ (snd (Grid.scan pr self p levels) = None
      \/ exists level, In level levels
           /\ snd (Grid.scan pr self p levels)
              = Some (Grid.buy_signal pr self level)).
Proof.
  induction 1 as [|level rest Hl Hrest IH]; simpl.
  - split; [constructor | left; reflexivity].
  - destruct IH as [IH1 IH2].
    assert (Hskip :
      Forall Grid.level_ok (level :: fst (Grid.scan pr self p rest))
      /\ (snd (Grid.scan pr self p rest) = None
          \/ exists l, (level = l \/ In l rest)
               /\ snd (Grid.scan pr self p rest)
                  = Some (Grid.buy_signal pr self l))).
    { split; [constructor; assumption|].
      destruct IH2 as [->|[l [Hin ->]]]; [left; reflexivity|].
      right. exists l. split; [right; exact Hin | reflexivity]. }
    unfold Grid.level_ok in Hl.
    destruct (Grid.is_filled level) eqn:Ef; simpl; [exact Hskip|].
    rewrite Hl. simpl.
    destruct (Py.le p (Grid.price level)); simpl; [|exact Hskip].
    split.
    + constructor; [reflexivity | exact Hrest].
    + right. exists level. split; [left; reflexivity | reflexivity].
Qed.

Lemma on_tick_only_buys pr self t :
  Forall Grid.level_ok (Grid.grid_levels self) ->
  Forall Grid.level_ok (Grid.grid_levels (fst (Grid.on_tick pr self t)))
  /\ (snd (Grid.on_tick pr self t) = None
      \/ exists level, In level (Grid.grid_levels self)
           /\ snd (Grid.on_tick pr self t)
              = Some (Grid.buy_signal pr self level)).
Proof.
  intros H. unfold Grid.on_tick.
  destruct (negb (Py.truthy _)); simpl; [split; [exact H | left; reflexivity]|].
  destruct (_ && _ && _); simpl; [split; [exact H | left; reflexivity]|].
  destruct (_ || _); simpl; [split; [exact H | left; reflexivity]|].
  apply scan_only_buys. exact H.
Qed.

(** X2.  From [initialize] on no tick sequence ever yields a SELL: a level that
    has bought is marked filled and skipped from then on. *)
Lemma grid_never_sells pr pow self ts :
  Forall (fun ty => ty = Strategy.BUY)
    (Grid.emitted_types
       (snd (Grid.on_ticks pr (fst (Grid.initialize pow self)) ts))).
Proof.
  pose proof (initialize_levels_ok pow self) as Hinv.
  generalize dependent (fst (Grid.initialize pow self)).
  induction ts as [|t ts IH]; intros g Hinv; simpl.
  - constructor.
  - destruct (on_tick_only_buys pr g t Hinv) as [Hinv' Hsig].
    unfold Grid.emitted_types, Grid.emitted in *. simpl.
    rewrite map_app. apply Forall_app. split; [|apply IH; exact Hinv'].
    destruct Hsig as [->|[l [_ ->]]]; simpl; repeat constructor.
Qed.

(** Outside the range a tick returns nothing and leaves the levels alone. *)
Lemma on_tick_outside_range pr self t :
  Py.gt (Strategy.get_price t) (Grid.upper_price self)
    || Py.lt (Strategy.get_price t) (Grid.lower_price self) = true ->
  snd (Grid.on_tick pr self t) = None
  /\ Grid.grid_levels (fst (Grid.on_tick pr self t)) = Grid.grid_levels self.
Proof.
  intros H. unfold Grid.on_tick.
  destruct (negb (Py.truthy _)); simpl; [split; reflexivity|].
  destruct (_ && _ && _); simpl; [split; reflexivity|].
  rewrite H. split; reflexivity.
Qed.

(** C4.  On the grid upper = 110, lower = 100, grid_count = 10,
    order_size = 1 the ticks 100, 101, 102, 99, 101, 103, 108, 110 yield
    BUY@100, BUY@101, BUY@102, BUY@103, BUY@104, BUY@108, BUY@110: the
    tick at 101 that follows the one at 99 buys at level 103, because the
    levels 100, 101 and 102 are marked filled and skipped, and no SELL is
    emitted. *)
Theorem grid_scenario_emits_only_buys :
  forall (pr : Py.printer) (pow : float -> float -> Py.result float),
    Grid.emitted
      (snd (Grid.on_ticks pr (fst (Grid.initialize pow scenario_grid))
              scenario_ticks))
    = [(Strategy.BUY, 100%float); (Strategy.BUY, 101%float);
       (Strategy.BUY, 102%float); (Strategy.BUY, 103%float);
       (Strategy.BUY, 104%float); (Strategy.BUY, 108%float);
       (Strategy.BUY, 110%float)].
Proof. intros pr pow. vm_compute. reflexivity. Qed.

(* ------------------------------------------------------------------ *)
(** ** DCA strategy                                                     *)
(* ------------------------------------------------------------------ *)

Lemma on_order_filled_average (self : DCA.DCAStrategy) (order : Strategy.Fill) :
  let r := DCA.on_order_filled self order in
  Py.eq (DCA.total_quantity (fst r)) 0%float = false ->
  snd r = Py.Ok tt
  /\ DCA.average_entry (fst r)
     = (DCA.total_invested (fst r) / DCA.total_quantity (fst r))%float.
Proof.
  unfold DCA.on_order_filled, Py.truediv, Py.eq.
  destruct (PrimFloat.eqb (DCA.total_quantity self + _) 0%float) eqn:E; simpl.
  - rewrite E. discriminate.
  - intros _. split; reflexivity.
Qed.

(** A fill that brings the total quantity to zero raises and leaves the
    previous average in place. *)
Lemma on_order_filled_zero_total (self : DCA.DCAStrategy)
    (order : Strategy.Fill) :
  let r := DCA.on_order_filled self order in
  Py.eq (DCA.total_quantity (fst r)) 0%float = true ->
  snd r = Py.Raise Py.ZeroDivisionError
  /\ DCA.average_entry (fst r) = DCA.average_entry self.
Proof.
  unfold DCA.on_order_filled, Py.truediv, Py.eq.
  destruct (PrimFloat.eqb (DCA.total_quantity self + _) 0%float) eqn:E; simpl.
  - intros _. split; reflexivity.
  - rewrite E. discriminate.
Qed.

(** C5, as the code has it.  After the fills of the base order and of any
    number of safety orders, the last of which left a non-zero total
    quantity, [average_entry] is [total_invested / total_quantity].  On a
    tick with a non-zero price, once the base order has been placed, with
    [total_quantity > 0] and the profit percentage at or above
    [take_profit_percent], [on_tick] returns a SELL of the whole
    [total_quantity] at the tick price; the strategy keeps its base order,
    its safety orders and its running totals: only [current_price] is
    updated. *)
Theorem dca_average_and_take_profit :
  (forall (self : DCA.DCAStrategy) (fills : list Strategy.Fill)
          (last : Strategy.Fill),
     let r := DCA.on_order_filled (DCA.on_orders_filled self fills) last in
     Py.eq (DCA.total_quantity (fst r)) 0%float = false ->
     snd r = Py.Ok tt
     /\ DCA.on_orders_filled self (fills ++ [last]) = fst r
     /\ DCA.average_entry (fst r)
        = (DCA.total_invested (fst r) / DCA.total_quantity (fst r))%float)
  /\
  (forall (pr : Py.printer) (self : DCA.DCAStrategy) (p : float),
     let pnl := ((p - DCA.average_entry self) / DCA.average_entry self
                 * 100)%float in
     Py.truthy p = true ->
     DCA.base_order_filled self = true ->
     Py.gt (DCA.total_quantity self) 0%float = true ->
     Py.eq (DCA.average_entry self) 0%float = false ->
     Py.ge pnl (DCA.take_profit_pct self) = true ->
     exists sig,
       DCA.on_tick pr self (Strategy.tick p)
       = (DCA.set_price self p, Py.Ok (Some sig))
       /\ Strategy.type sig = Strategy.SELL
       /\ Strategy.quantity sig = Some (DCA.total_quantity self)
       /\ Strategy.price sig = p
       /\ DCA.base_order_filled (DCA.set_price self p)
          = DCA.base_order_filled self
       /\ DCA.safety_orders (DCA.set_price self p) = DCA.safety_orders self
       /\ DCA.average_entry (DCA.set_price self p) = DCA.average_entry self
       /\ DCA.total_quantity (DCA.set_price self p) = DCA.total_quantity self
       /\ DCA.total_invested (DCA.set_price self p)
          = DCA.total_invested self).
Proof.
  split.
  - intros self fills last r Hq.
    destruct (on_order_filled_average
                (DCA.on_orders_filled self fills) last Hq) as [H1 H2].
    split; [exact H1|]. split; [|exact H2].
    unfold DCA.on_orders_filled. rewrite fold_left_app. reflexivity.
  - intros pr self p pnl Hp Hbase Hq Havg Htp.
    exists (DCA.exit_signal pr self "Take profit at " p pnl).
    split; [|repeat split].
    subst pnl. unfold DCA.on_tick.
    change (Strategy.get_price (Strategy.tick p)) with p.
    rewrite Hp, Hbase, Hq. cbn [negb].
    unfold Py.truediv. unfold Py.eq in Havg. rewrite Havg, Htp.
    reflexivity.
Qed.

Lemma dca_average_and_take_profit_witness :
  DCA.average_entry dca_after_base = 100%float
  /\ exists sig,
       DCA.on_tick plain_printer dca_after_base (Strategy.tick 103%float)
       = (DCA.set_price dca_after_base 103%float, Py.Ok (Some sig))
       /\ Strategy.type sig = Strategy.SELL
       /\ Strategy.quantity sig = Some 1%float.
Proof.
  destruct dca_average_and_take_profit as [Havg Htp].
  split.
  - pose (s1 := fst (DCA.on_tick plain_printer
                       (DCA.initialize
                          (DCA.init "BTCUSDT" 1%float 1%float (Some 3%Z)
                             (Some 1%float) (Some 1%float) (Some 1%float)
                             (Some 2%float) None))
                       (Strategy.tick 100%float))).
    destruct (Havg s1 []
                {| Strategy.fill_quantity := Some 1%float;
                   Strategy.fill_price := Some 100%float |} eq_refl)
      as [_ [_ H]].
    exact H.
  - destruct (Htp plain_printer dca_after_base 103%float
                eq_refl eq_refl eq_refl eq_refl eq_refl)
      as [sig [H1 [H2 [H3 _]]]].
    exists sig. split; [exact H1|]. split; [exact H2 | exact H3].
Defined.

(** C5, as stated, fails: the tick at 103 after a base order filled at 100
    with a 2% take profit returns the SELL of the whole quantity, and the
    strategy it leaves is not reset: the base order is still marked placed
    and the totals are kept, so the next tick at 103 sells again. *)
Lemma take_profit_does_not_reset :
  let r := DCA.on_tick plain_printer dca_after_base (Strategy.tick 103%float) in
  (exists sig, snd r = Py.Ok (Some sig)
               /\ Strategy.type sig = Strategy.SELL
               /\ Strategy.quantity sig = Some 1%float)
  /\ ~ DCA.fresh_cycle (fst r)
  /\ DCA.base_order_filled (fst r) = true
  /\ DCA.total_quantity (fst r) = 1%float
  /\ DCA.total_invested (fst r) = 100%float
  /\ snd (DCA.on_tick plain_printer (fst r) (Strategy.tick 103%float)) = snd r.
Proof.
  split; [eexists; split; [reflexivity | split; reflexivity]|].
  split; [intros [H _]; vm_compute in H; discriminate|].
  repeat split.
Qed.

(* ------------------------------------------------------------------ *)
(** ** Order cancellation                                               *)
(* ------------------------------------------------------------------ *)





(* ------------------------------------------------------------------ *)
(** ** Strategy-engine event bus                                        *)
(* ------------------------------------------------------------------ *)

Section BusFacts.
Variables W json : Type.
Variable json_loads : string -> Py.result json.



End BusFacts.

(** C8.  A handler that raises does not stop the next one and nothing
    reaches the caller, but the failure leaves no trace: with a raising
    handler followed by a counting one subscribed to "market.*", a message
    on "xor:market.tick" returns normally, the counter has moved from 0 to
    1, and the log of the bus is as empty as before. *)
Theorem handler_failure_swallowed_without_log :
  forall (json_loads : string -> Py.result unit),
    Bus._handle_message nat unit json_loads sample_bus sample_message 0 []
    = (1, [], Py.Ok tt)
    /\ Bus.on_handler_error (Py.RuntimeError "boom") = [].
Proof. intros json_loads. split; reflexivity. Qed.

(* ------------------------------------------------------------------ *)
(** ** Risk engine: further properties                                  *)
(* ------------------------------------------------------------------ *)

Lemma kill_switch_latched_witness :
  let killed := Risk.trigger_kill_switch (Risk.init None) "manual stop" in
  let cs := [Risk.CalculatePortfolioRisk 1 10000%float;
             Risk.ResetDailyTracking 2 10000%float;
             Risk.UpdatePosition "BTCUSDT" "long" 1%float 100%float
               101%float 1%float] in
  Risk.is_killed (Risk.run killed cs) = true
  /\ Risk.valid (Risk.validate_order plain_printer (Risk.run killed cs)
                   "BTCUSDT" "buy" 1%float 100%float 1%float 10000%float)
     = false.
Proof.
  intros killed cs.
  destruct (kill_switch_latched plain_printer cs killed eq_refl eq_refl)
    as [H1 H2].
  split; [exact H1|]. rewrite H2. reflexivity.
Defined.

Lemma mem_del_same k d : Risk.mem k (Risk.del k d) = false.
Proof.
  unfold Risk.mem, Risk.del. induction d as [|[k' v] d IH]; simpl.
  - reflexivity.
  - destruct (String.eqb k' k) eqn:E; simpl; [exact IH|].
    rewrite E. exact IH.
Qed.

Lemma lookup_del_other k k' d :
  k' <> k -> RiskBook.lookup k' (Risk.del k d) = RiskBook.lookup k' d.
Proof.
  intros Hne. unfold Risk.del. induction d as [|[k0 v] d IH]; simpl.
  - reflexivity.
  - destruct (String.eqb_spec k0 k) as [->|Hk]; simpl.
    + destruct (String.eqb_spec k k'); [congruence | exact IH].
    + rewrite IH. reflexivity.
Qed.

Lemma lookup_none_not_mem k d :
  Risk.mem k d = false -> RiskBook.lookup k d = None.
Proof.
  unfold Risk.mem. induction d as [|[k0 v] d IH]; simpl.
  - reflexivity.
  - destruct (String.eqb k0 k); simpl; [discriminate | exact IH].
Qed.

(** X4.  [update_position] with a zero size always returns
    normally and drops the symbol: afterwards the symbol is no key of
    [positions], and every other symbol keeps its entry. *)
Theorem update_position_zero_size_removes :
  forall (self : Risk.RiskEngine) (sym sd : string)
         (sz entry current lev : float),
    Py.eq sz 0%float = true ->
    exists self',
      Risk.update_position self sym sd sz entry current lev = Py.Ok self'
      /\ Risk.mem sym (Risk.positions self') = false
      /\ RiskBook.lookup sym (Risk.positions self') = None
      /\ (forall k, k <> sym ->
            RiskBook.lookup k (Risk.positions self')
            = RiskBook.lookup k (Risk.positions self))
      /\ Risk.peak_equity self' = Risk.peak_equity self
      /\ Risk.is_killed self' = Risk.is_killed self.
Proof.
  intros self sym sd sz entry current lev Hz.
  unfold Risk.update_position. rewrite Hz.
  destruct (Risk.mem sym (Risk.positions self)) eqn:Hm.
  - eexists. split; [reflexivity|]. simpl.
    split; [apply mem_del_same|].
    split; [apply lookup_none_not_mem, mem_del_same|].
    split; [|split; reflexivity].
    intros k Hk. apply lookup_del_other. exact Hk.
  - exists self. split; [reflexivity|]. split; [exact Hm|].
    split; [apply lookup_none_not_mem; exact Hm|].
    split; [reflexivity | split; reflexivity].
Qed.

Lemma update_position_zero_size_removes_witness :
  let held := Risk.step (Risk.init None)
                (Risk.UpdatePosition "BTCUSDT" "long" 1%float 100%float
                   101%float 1%float) in
  Risk.mem "BTCUSDT" (Risk.positions held) = true
  /\ exists self',
       Risk.update_position held "BTCUSDT" "long" 0%float 100%float
         101%float 1%float = Py.Ok self'
       /\ Risk.mem "BTCUSDT" (Risk.positions self') = false.
Proof.
  intros held. split; [reflexivity|].
  destruct (update_position_zero_size_removes held "BTCUSDT" "long"
              0%float 100%float 101%float 1%float eq_refl)
    as [self' [H1 [H2 _]]].
  exists self'. split; [exact H1 | exact H2].
Defined.

Lemma lookup_setitem_same k v d :
  RiskBook.lookup k (Risk.setitem k v d) = Some v.
Proof.
  induction d as [|[k0 v0] d IH]; simpl.
  - rewrite String.eqb_refl. reflexivity.
  - destruct (String.eqb k0 k) eqn:E; simpl; rewrite E; [reflexivity|exact IH].
Qed.

Lemma lookup_setitem_other k k' v d :
  k' <> k -> RiskBook.lookup k' (Risk.setitem k v d) = RiskBook.lookup k' d.
Proof.
  intros Hne. induction d as [|[k0 v0] d IH]; simpl.
  - destruct (String.eqb_spec k k'); [congruence | reflexivity].
  - destruct (String.eqb_spec k0 k) as [->|Hk]; simpl.
    + destruct (String.eqb_spec k k'); [congruence | reflexivity].
    + rewrite IH. reflexivity.
Qed.

Lemma len_setitem k v d :
  Risk.len (Risk.setitem k v d)
  = (Risk.len d + (if Risk.mem k d then 0 else 1))%Z.
Proof.
  unfold Risk.len, Risk.mem. induction d as [|[k0 v0] d IH].
  - reflexivity.
  - cbn [Risk.setitem existsb fst].
    destruct (String.eqb k0 k); cbn [orb List.length].
    + lia.
    + rewrite !Nat2Z.inj_succ, IH. lia.
Qed.

(** X5.  [update_position] with a non-zero size and a non-zero
    [entry_price * size] stores the position under its symbol: the entry
    read back carries the arguments, with the profit counted as a long's
    only for the side "long" and as a short's for any other string; other
    symbols are untouched, and the number of positions grows by one exactly
    when the symbol was not held. *)
Theorem update_position_records :
  forall (self : Risk.RiskEngine) (sym sd : string)
         (sz entry current lev : float),
    Py.eq sz 0%float = false ->
    Py.eq (entry * sz)%float 0%float = false ->
    exists self' pos,
      Risk.update_position self sym sd sz entry current lev = Py.Ok self'
      /\ RiskBook.lookup sym (Risk.positions self') = Some pos
      /\ Risk.size pos = sz /\ Risk.entry_price pos = entry
      /\ Risk.current_price pos = current /\ Risk.leverage pos = lev
      /\ Risk.unrealized_pnl pos
         = (if String.eqb sd "long" then ((current - entry) * sz)%float
            else ((entry - current) * sz)%float)
      /\ (forall k, k <> sym ->
            RiskBook.lookup k (Risk.positions self')
            = RiskBook.lookup k (Risk.positions self))
      /\ Risk.len (Risk.positions self')
         = (Risk.len (Risk.positions self)
            + (if Risk.mem sym (Risk.positions self) then 0 else 1))%Z.
Proof.
  intros self sym sd sz entry current lev Hz Hd.
  unfold Risk.update_position, Py.truediv, Py.bind.
  unfold Py.eq in Hd. rewrite Hz, Hd.
  eexists. eexists. split; [reflexivity|]. cbn [Risk.positions Risk.set_positions].
  split; [apply lookup_setitem_same|]. cbn.
  repeat (split; [reflexivity|]).
  split; [|apply len_setitem].
  intros k Hk. apply lookup_setitem_other. exact Hk.
Qed.

Lemma update_position_records_witness :
  exists self' pos,
    Risk.update_position (Risk.init None) "BTCUSDT" "short" 2%float
      100%float 90%float 1%float = Py.Ok self'
    /\ RiskBook.lookup "BTCUSDT" (Risk.positions self') = Some pos
    /\ Risk.unrealized_pnl pos = 20%float
    /\ Risk.len (Risk.positions self') = 1%Z.
Proof.
  destruct (update_position_records (Risk.init None) "BTCUSDT" "short"
              2%float 100%float 90%float 1%float eq_refl eq_refl)
    as [self' [pos [H1 [H2 [_ [_ [_ [_ [H3 [_ H4]]]]]]]]]].
  exists self', pos. split; [exact H1|]. split; [exact H2|].
  split; [exact H3 | exact H4].
Defined.

Lemma run_peak_not_below (cs : list Risk.call) :
  forall self,
    Risk.not_below (Risk.peak_equity self)
                   (Risk.peak_equity (Risk.run self cs)).
Proof.
  induction cs as [|c cs IH]; intros self.
  - apply not_below_refl.
  - simpl. eapply not_below_trans; [apply step_peak_equity | apply IH].
Qed.

Lemma not_below_keeps_bound (a b e : float) :
  Py.lt a e = false -> Risk.not_below a b -> Py.lt b e = false.
Proof.
  unfold Py.lt, Risk.not_below, Py.gt. intros Ha [->|Hab]; [exact Ha|].
  destruct (PrimFloat.ltb b e) eqn:E; [|reflexivity].
  rewrite (float_lt_trans a b e Hab E) in Ha. discriminate.
Qed.

(** X6.  After any run of calls, [peak_equity] is not below any equity
    that was reported to [calculate_portfolio_risk] during the run. *)
Theorem peak_equity_bounds_reported :
  forall (cs : list Risk.call) (self : Risk.RiskEngine) (e : float),
    In e (RiskBook.reported cs) ->
    Py.lt (Risk.peak_equity (Risk.run self cs)) e = false.
Proof.
  induction cs as [|c cs IH]; intros self e Hin; [contradiction|].
  unfold RiskBook.reported in Hin. cbn [flat_map] in Hin.
  apply in_app_or in Hin. destruct Hin as [Hc | Hrest].
  - destruct c; try contradiction. destruct Hc as [<-|[]].
    cbn [Risk.run fold_left].
    apply (not_below_keeps_bound
             (Risk.peak_equity
                (Risk.step self (Risk.CalculatePortfolioRisk now equity)))).
    + cbn [Risk.step]. unfold Risk.calculate_portfolio_risk. cbn [fst].
      destruct (Py.gt equity (Risk.peak_equity self)) eqn:E.
      * apply float_lt_irrefl.
      * exact E.
    + apply (run_peak_not_below cs).
  - cbn [Risk.run fold_left]. apply (IH (Risk.step self c) e Hrest).
Qed.

Lemma peak_equity_bounds_reported_witness :
  Py.lt (Risk.peak_equity
           (Risk.run (Risk.init None)
              [Risk.CalculatePortfolioRisk 1 10000%float;
               Risk.CalculatePortfolioRisk 2 8900%float]))
        10000%float = false.
Proof.
  apply (peak_equity_bounds_reported
           [Risk.CalculatePortfolioRisk 1 10000%float;
            Risk.CalculatePortfolioRisk 2 8900%float]
           (Risk.init None) 10000%float).
  left. reflexivity.
Defined.

(** X7.  No public operation of the engine records a realised profit or
    loss: on an engine created by [RiskEngine(limits)],
    [realized_pnl_today] is 0.0 after every run of calls. *)
Theorem realized_pnl_never_recorded :
  forall (cs : list Risk.call) (l : option Risk.RiskLimits),
    Risk.realized_pnl_today (Risk.run (Risk.init l) cs) = 0%float.
Proof.
  intros cs l.
  assert (H : forall cs self, Risk.realized_pnl_today self = 0%float ->
                Risk.realized_pnl_today (Risk.run self cs) = 0%float).
  { clear. induction cs as [|c cs IH]; intros self H0; [exact H0|].
    cbn [Risk.run fold_left]. apply IH.
    destruct c; cbn [Risk.step]; try exact H0; try reflexivity.
    - unfold Risk.update_position.
      destruct (Py.eq sz 0%float).
      + destruct (Risk.mem sym (Risk.positions self)); exact H0.
      + unfold Py.bind, Py.truediv.
        destruct (PrimFloat.eqb _ 0%float); exact H0.
    - unfold Risk.calculate_portfolio_risk. cbn [fst].
      destruct (Py.gt equity (Risk.peak_equity self)); exact H0. }
  apply H. reflexivity.
Qed.

(** X8.  For a symbol that is already held, the answer of
    [validate_order] does not depend on [max_open_positions]: the
    open-positions check never rejects an order on a held symbol. *)
Theorem held_symbol_ignores_position_limit :
  forall (pr : Py.printer) (self : Risk.RiskEngine) (sym sd : string)
         (quantity price lev pv : float) (m : Z),
    Risk.mem sym (Risk.positions self) = true ->
    Risk.validate_order pr (RiskBook.with_max_open_positions self m)
      sym sd quantity price lev pv
    = Risk.validate_order pr self sym sd quantity price lev pv.
Proof.
  intros pr self sym sd quantity price lev pv m Hm.
  unfold Risk.validate_order, RiskBook.with_max_open_positions.
  cbn [Risk.update_limits Risk.is_killed Risk.limits Risk.positions
       Risk.max_leverage Risk.max_position_size_percent
       Risk.max_open_positions].
  rewrite Hm. cbn [negb]. rewrite !andb_false_r.
  reflexivity.
Qed.

Lemma held_symbol_ignores_position_limit_witness :
  let held := Risk.step (Risk.init None)
                (Risk.UpdatePosition "BTCUSDT" "long" 1%float 100%float
                   101%float 1%float) in
  Risk.validate_order plain_printer (RiskBook.with_max_open_positions held 0)
    "BTCUSDT" "buy" 1%float 100%float 1%float 10000%float
  = {| Risk.valid := true; Risk.reason := None |}.
Proof.
  intros held.
  rewrite (held_symbol_ignores_position_limit plain_printer held "BTCUSDT"
             "buy" 1%float 100%float 1%float 10000%float 0 eq_refl).
  reflexivity.
Defined.

(* ------------------------------------------------------------------ *)
(** ** NaN readings                                                     *)
(* ------------------------------------------------------------------ *)

Lemma float_leb_nan_r (x : float) : PrimFloat.leb x nan = false.
Proof.
  rewrite leb_spec. change (Prim2SF nan) with S754_nan.
  unfold SFleb. destruct (Prim2SF x); reflexivity.
Qed.

Lemma float_ltb_nan_r (x : float) : PrimFloat.ltb x nan = false.
Proof.
  rewrite ltb_spec. change (Prim2SF nan) with S754_nan.
  unfold SFltb. destruct (Prim2SF x); reflexivity.
Qed.

Lemma float_div_nan_r (a : float) : (a / nan)%float = nan.
Proof.
  apply Prim2SF_inj. rewrite div_spec. change (Prim2SF nan) with S754_nan.
  unfold SF64div, SFdiv. destruct (Prim2SF a); reflexivity.
Qed.

Lemma float_mul_nan_l (b : float) : (nan * b)%float = nan.
Proof.
  apply Prim2SF_inj. rewrite mul_spec. change (Prim2SF nan) with S754_nan.
  reflexivity.
Qed.

Lemma float_sub_nan_r (a : float) : (a - nan)%float = nan.
Proof.
  apply Prim2SF_inj. rewrite sub_spec. change (Prim2SF nan) with S754_nan.
  unfold SF64sub, SFsub. destruct (Prim2SF a) as [| | |s m e]; try reflexivity.
Qed.

Lemma float_div_nan_l (b : float) : (nan / b)%float = nan.
Proof.
  apply Prim2SF_inj. rewrite div_spec. change (Prim2SF nan) with S754_nan.
  reflexivity.
Qed.

(** X9.  A portfolio value that is NaN switches off the position-size and
    the drawdown checks: with the kill switch off, the leverage within its
    limit, the open-positions check passing and no daily loss recorded,
    [validate_order] accepts every quantity and price. *)
Theorem validate_order_nan_portfolio :
  forall (pr : Py.printer) (self : Risk.RiskEngine) (sym sd : string)
         (quantity price lev : float),
    Risk.is_killed self = false ->
    Py.gt lev (Py.float_of_int (Risk.max_leverage (Risk.limits self)))
      = false ->
    (Risk.len (Risk.positions self)
       < Risk.max_open_positions (Risk.limits self))%Z ->
    Risk._check_daily_loss_exceeded self = false ->
    Risk.validate_order pr self sym sd quantity price lev nan
    = {| Risk.valid := true; Risk.reason := None |}.
Proof.
  intros pr self sym sd quantity price lev Hk Hlev Hopen Hdaily.
  unfold Risk.validate_order. rewrite Hk, Hlev, Hdaily.
  unfold Risk.position_size_percent.
  replace (Py.truthy nan) with true by reflexivity.
  rewrite float_div_nan_r, float_mul_nan_l.
  unfold Py.gt at 1. rewrite float_ltb_nan_r.
  replace (Risk.len (Risk.positions self)
             >=? Risk.max_open_positions (Risk.limits self))%Z
    with false by (symmetry; rewrite Z.geb_leb; apply Z.leb_gt; exact Hopen).
  unfold Risk._check_max_drawdown_exceeded.
  destruct (Py.eq (Risk.peak_equity self) 0%float); [reflexivity|].
  rewrite float_sub_nan_r, float_div_nan_l, float_mul_nan_l.
  unfold Py.ge. rewrite float_leb_nan_r. reflexivity.
Qed.

Lemma validate_order_nan_portfolio_witness :
  Risk.validate_order plain_printer engine_at_peak "BTCUSDT" "buy"
    1000000%float 1000000%float 1%float nan
  = {| Risk.valid := true; Risk.reason := None |}.
Proof.
  apply (validate_order_nan_portfolio plain_printer engine_at_peak
           "BTCUSDT" "buy" 1000000%float 1000000%float 1%float);
    reflexivity.
Defined.

(* ------------------------------------------------------------------ *)
(** ** Kill switch: further properties                                  *)
(* ------------------------------------------------------------------ *)

(** X10.  On an inactive switch [check_conditions] returns nothing exactly
    when no condition is breached.  When it returns an event, the trigger
    is that of the first breached condition in the order drawdown, daily
    loss, exchange health; the event is the one appended to the history,
    the switch is active, and a further [check_conditions], whatever its
    arguments, returns nothing and changes nothing. *)
Theorem check_conditions_first_breach_wins :
  forall (pr : Py.printer) (ks : Kill.KillSwitch) (now : Z)
         (dd mdd dl mdl : float) (healthy : bool),
    Kill.is_active ks = false ->
    let r := Kill.check_conditions pr ks now dd mdd dl mdl healthy in
    (snd r = None <->
     Py.ge dd mdd = false /\ Py.ge dl mdl = false /\ healthy = true)
    /\ (forall ev, snd r = Some ev ->
          Kill.trigger ev
          = (if Py.ge dd mdd then Kill.MAX_DRAWDOWN
             else if Py.ge dl mdl then Kill.DAILY_LOSS
             else Kill.EXCHANGE_ERROR)
          /\ Kill.events (fst r) = (Kill.events ks ++ [ev])%list
          /\ Kill.is_active (fst r) = true
          /\ Kill.affected_bots (fst r) = []
          /\ forall now' dd' mdd' dl' mdl' healthy',
               Kill.check_conditions pr (fst r) now' dd' mdd' dl' mdl' healthy'
               = (fst r, None)).
Proof.
  intros pr ks now dd mdd dl mdl healthy Hks r.
  assert (Hlatch : forall ks', Kill.is_active ks' = true ->
            forall now' dd' mdd' dl' mdl' healthy',
              Kill.check_conditions pr ks' now' dd' mdd' dl' mdl' healthy'
              = (ks', None)).
  { intros ks' Ha. intros. unfold Kill.check_conditions. rewrite Ha.
    reflexivity. }
  assert (Hr : r = Kill.check_conditions pr ks now dd mdd dl mdl healthy)
    by reflexivity.
  clearbody r. unfold Kill.check_conditions in Hr. rewrite Hks in Hr.
  destruct (Py.ge dd mdd); [|destruct (Py.ge dl mdl); [|destruct healthy]];
    cbn [negb] in Hr; subst r; cbn [fst snd Kill.activate]; split.
  all: try (split; [discriminate | intros [? [? ?]]; discriminate]).
  all: try (split; [intros _; repeat split | reflexivity]).
  all: try (intros ev Hev; discriminate Hev).
  all: intros ev Hev; injection Hev as <-;
       repeat (split; [reflexivity|]); apply Hlatch; reflexivity.
Qed.

Lemma check_conditions_first_breach_wins_witness :
  let r := Kill.check_conditions plain_printer Kill.init 1
             11%float 10%float 5%float 3%float false in
  exists ev, snd r = Some ev /\ Kill.trigger ev = Kill.MAX_DRAWDOWN
             /\ Kill.events (fst r) = [ev].
Proof.
  intros r.
  destruct (check_conditions_first_breach_wins plain_printer Kill.init 1
              11%float 10%float 5%float 3%float false eq_refl) as [_ H].
  eexists. split; [reflexivity|].
  destruct (H _ eq_refl) as [H1 [H2 _]]. split; [exact H1 | exact H2].
Defined.

(** A drawdown and a daily loss that are both NaN never activate the
    switch: with a healthy exchange [check_conditions] returns nothing and
    leaves the switch as it was, whatever the limits. *)
Theorem check_conditions_nan_never_activates :
  forall (pr : Py.printer) (ks : Kill.KillSwitch) (now : Z)
         (mdd mdl : float),
    Kill.check_conditions pr ks now nan mdd nan mdl true = (ks, None).
Proof.
  intros pr ks now mdd mdl. unfold Kill.check_conditions, Py.ge.
  rewrite !float_leb_nan_r. destruct (Kill.is_active ks); reflexivity.
Qed.

Lemma step_history pr ks c :
  exists later,
    Kill.events (KillRun.step pr ks c) = (Kill.events ks ++ later)%list
    /\ (List.length later <= 1)%nat.
Proof.
  destruct c as [now t why bots | code | now dd mdd dl mdl healthy];
    cbn [KillRun.step].
  - exists [{| Kill.trigger := t; Kill.reason := why;
               Kill.ev_affected_bots :=
                 match bots with Some l => l | None => [] end;
               Kill.timestamp := now; Kill.auto_reset_at := None |}].
    split; [reflexivity | simpl; lia].
  - exists []. rewrite app_nil_r. split; [|simpl; lia].
    unfold Kill.deactivate. destruct (negb _); reflexivity.
  - unfold Kill.check_conditions.
    destruct (Kill.is_active ks);
      [exists []; rewrite app_nil_r; split; [reflexivity | simpl; lia]|].
    destruct (Py.ge dd mdd);
      [eexists; split; [reflexivity | simpl; lia]|].
    destruct (Py.ge dl mdl);
      [eexists; split; [reflexivity | simpl; lia]|].
    destruct healthy; cbn [negb].
    + exists []. rewrite app_nil_r. split; [reflexivity | simpl; lia].
    + eexists. split; [reflexivity | simpl; lia].
Qed.

(** X11.  The activation history is append-only: after any run of
    [activate], [deactivate] and [check_conditions] calls the events
    recorded before are still there, in front, and at most one event per
    call has been added; [deactivate] never erases history. *)
Theorem kill_history_append_only :
  forall (pr : Py.printer) (cs : list KillRun.call) (ks : Kill.KillSwitch),
    exists later,
      Kill.events (KillRun.run pr ks cs) = (Kill.events ks ++ later)%list
      /\ (List.length later <= List.length cs)%nat
      /\ Kill.total_activations (Kill.get_status (KillRun.run pr ks cs))
         = (Kill.total_activations (Kill.get_status ks)
            + Z.of_nat (List.length later))%Z.
Proof.
  intros pr cs.
  assert (H : forall ks, exists later,
             Kill.events (KillRun.run pr ks cs)
             = (Kill.events ks ++ later)%list
             /\ (List.length later <= List.length cs)%nat).
  { induction cs as [|c cs IH]; intros ks.
    - exists []. rewrite app_nil_r. split; [reflexivity | simpl; lia].
    - destruct (step_history pr ks c) as [l1 [H1 L1]].
      destruct (IH (KillRun.step pr ks c)) as [l2 [H2 L2]].
      exists (l1 ++ l2)%list. cbn [KillRun.run fold_left].
      unfold KillRun.run in H2. rewrite H2, H1, <- app_assoc.
      split; [reflexivity|]. rewrite length_app. simpl. lia. }
  intros ks. destruct (H ks) as [later [H1 H2]].
  exists later. split; [exact H1|]. split; [exact H2|].
  unfold Kill.get_status. cbn [Kill.total_activations].
  rewrite H1, length_app. lia.
Qed.

(** X12.  On a switch created by [KillSwitch()], after any run of calls:
    an inactive switch lists no affected bots. *)
Theorem inactive_switch_affects_no_bot :
  forall (pr : Py.printer) (cs : list KillRun.call),
    Kill.is_active (KillRun.run pr Kill.init cs) = false ->
    Kill.affected_bots (KillRun.run pr Kill.init cs) = [].
Proof.
  intros pr cs.
  assert (H : forall ks,
             (Kill.is_active ks = false -> Kill.affected_bots ks = []) ->
             Kill.is_active (KillRun.run pr ks cs) = false ->
             Kill.affected_bots (KillRun.run pr ks cs) = []).
  { induction cs as [|c cs IH]; intros ks Hinv; [exact Hinv|].
    cbn [KillRun.run fold_left]. apply IH.
    destruct c as [now t why bots | code | now dd mdd dl mdl healthy];
      cbn [KillRun.step].
    - cbn. discriminate.
    - unfold Kill.deactivate. destruct (negb _); cbn; [exact Hinv | reflexivity].
    - unfold Kill.check_conditions.
      destruct (Kill.is_active ks) eqn:E; [cbn; rewrite E; discriminate|].
      destruct (Py.ge dd mdd); [cbn; discriminate|].
      destruct (Py.ge dl mdl); [cbn; discriminate|].
      destruct healthy; cbn; [intros _; apply Hinv; reflexivity | discriminate]. }
  apply H. reflexivity.
Qed.

Lemma inactive_switch_affects_no_bot_witness :
  Kill.affected_bots
    (KillRun.run plain_printer Kill.init
       [KillRun.Activate 0 Kill.MANUAL "stop" (Some ["bot-1"; "bot-2"]);
        KillRun.Deactivate (Some "ok")]) = [].
Proof.
  apply (inactive_switch_affects_no_bot plain_printer
           [KillRun.Activate 0 Kill.MANUAL "stop" (Some ["bot-1"; "bot-2"]);
            KillRun.Deactivate (Some "ok")]).
  reflexivity.
Defined.

(* ------------------------------------------------------------------ *)
(** ** Grid strategy: further properties                                *)
(* ------------------------------------------------------------------ *)

Lemma on_tick_outside_range_witness :
  let g := fst (Grid.initialize (fun _ _ => Py.Raise Py.ZeroDivisionError)
                  scenario_grid) in
  snd (Grid.on_tick plain_printer g (Strategy.tick 99%float)) = None
  /\ Grid.grid_levels (fst (Grid.on_tick plain_printer g
                              (Strategy.tick 99%float)))
     = Grid.grid_levels g.
Proof.
  intros g.
  exact (on_tick_outside_range plain_printer g (Strategy.tick 99%float)
           eq_refl).
Defined.

Lemma scan_accounting pr self p levels :
  Forall Grid.level_ok levels ->
  (GridRun.active (fst (Grid.scan pr self p levels))
   + match snd (Grid.scan pr self p levels) with
     | Some _ => 1
     | None => 0
     end = GridRun.active levels)%nat.
Proof.
  unfold GridRun.active.
  induction 1 as [|level rest Hl Hrest IH]; cbn [Grid.scan].
  - reflexivity.
  - unfold Grid.level_ok in Hl.
    destruct (Grid.is_filled level) eqn:Ef.
    + cbn [fst snd filter]. rewrite Ef. cbn [negb]. exact IH.
    + rewrite Hl. cbn [negb andb].
      destruct (Py.le p (Grid.price level)).
      * cbn [fst snd filter Grid.is_filled negb]. rewrite Ef.
        cbn [negb List.length]. lia.
      * cbn [fst snd filter]. rewrite Ef. cbn [negb List.length].
        rewrite <- IH. lia.
Qed.

Lemma on_tick_accounting pr self t :
  Forall Grid.level_ok (Grid.grid_levels self) ->
  (GridRun.active (Grid.grid_levels (fst (Grid.on_tick pr self t)))
   + match snd (Grid.on_tick pr self t) with
     | Some _ => 1
     | None => 0
     end = GridRun.active (Grid.grid_levels self))%nat.
Proof.
  intros H. unfold Grid.on_tick.
  destruct (negb (Py.truthy _)); cbn [fst snd]; [lia|].
  destruct (_ && _ && _); cbn [fst snd Grid.set_tick Grid.grid_levels]; [lia|].
  destruct (_ || _); cbn [fst snd Grid.set_tick Grid.grid_levels]; [lia|].
  apply scan_accounting. exact H.
Qed.

(** X13.  Every signal uses up one level for good: over any tick sequence
    after [initialize], the number of signals emitted plus the number of
    levels still unfilled equals the number of levels unfilled at the
    start; a grid never emits more signals than it has levels. *)
Theorem grid_each_level_fires_once :
  forall (pr : Py.printer) (pow : float -> float -> Py.result float)
         (self : Grid.GridStrategy) (ts : list Strategy.Tick),
    let g0 := fst (Grid.initialize pow self) in
    let r := Grid.on_ticks pr g0 ts in
    (GridRun.signals (snd r) + GridRun.active (Grid.grid_levels (fst r))
     = GridRun.active (Grid.grid_levels g0))%nat
    /\ (GridRun.signals (snd r) <= List.length (Grid.grid_levels g0))%nat
    /\ Grid.get_active_orders_count (fst r)
       = (Grid.get_active_orders_count g0
          - Z.of_nat (GridRun.signals (snd r)))%Z.
Proof.
  intros pr pow self ts g0 r.
  assert (H : forall ts g,
             Forall Grid.level_ok (Grid.grid_levels g) ->
             (GridRun.signals (snd (Grid.on_ticks pr g ts))
              + GridRun.active
                  (Grid.grid_levels (fst (Grid.on_ticks pr g ts)))
              = GridRun.active (Grid.grid_levels g))%nat).
  { clear. induction ts as [|t ts IH]; intros g Hinv.
    - reflexivity.
    - cbn [Grid.on_ticks fst snd].
      destruct (on_tick_only_buys pr g t Hinv) as [Hinv' _].
      pose proof (on_tick_accounting pr g t Hinv) as Hstep.
      specialize (IH (fst (Grid.on_tick pr g t)) Hinv').
      unfold GridRun.signals, Grid.emitted in *. cbn [flat_map].
      rewrite length_app.
      destruct (snd (Grid.on_tick pr g t)); cbn [List.length]; lia. }
  specialize (H ts g0 (initialize_levels_ok pow self)). fold r in H.
  split; [exact H|]. split.
  - unfold GridRun.active in H.
    pose proof (filter_length_le (fun l => negb (Grid.is_filled l))
                  (Grid.grid_levels g0)). lia.
  - unfold Grid.get_active_orders_count.
    unfold GridRun.active in H. lia.
Qed.

Lemma small_int_nonzero (z : Z) :
  (1 <= z <= 200)%Z -> PrimFloat.eqb (Py.float_of_int z) 0%float = false.
Proof.
  intros Hz.
  assert (Hall : forallb (fun n => negb (PrimFloat.eqb
                                           (Py.float_of_int (Z.of_nat n))
                                           0%float))
                         (seq 1 200) = true) by (vm_compute; reflexivity).
  rewrite forallb_forall in Hall.
  specialize (Hall (Z.to_nat z)). rewrite Z2Nat.id in Hall by lia.
  apply negb_true_iff, Hall, in_seq. lia.
Qed.

(** X14.  Building an arithmetic grid: for a [grid_count] between 1 and
    200 [initialize] returns normally with [grid_count + 1] levels, all of
    them unfilled buy levels, and the strategy running.  For
    [grid_count = 0] it raises [ZeroDivisionError], and the strategy is
    left marked as running with an empty grid. *)
Theorem arithmetic_grid_build :
  forall (pow : float -> float -> Py.result float)
         (self : Grid.GridStrategy),
    Grid.grid_type self = "arithmetic" ->
    ((1 <= Grid.grid_count self <= 200)%Z ->
     let g := fst (Grid.initialize pow self) in
     snd (Grid.initialize pow self) = Py.Ok tt
     /\ Z.of_nat (List.length (Grid.grid_levels g))
        = (Grid.grid_count self + 1)%Z
     /\ Forall (fun l => Grid.is_buy l = true /\ Grid.is_filled l = false)
               (Grid.grid_levels g)
     /\ Grid.get_active_orders_count g = (Grid.grid_count self + 1)%Z
     /\ Grid.is_running g = true)
    /\ (Grid.grid_count self = 0%Z ->
        Grid.initialize pow self
        = (Grid.set_levels self true [], Py.Raise Py.ZeroDivisionError)).
Proof.
  intros pow self Hty. split.
  - intros Hc g. subst g. unfold Grid.initialize, Grid._build_grid.
    rewrite Hty. cbn [String.eqb Ascii.eqb Bool.eqb andb].
    unfold Py.truediv. rewrite (small_int_nonzero _ Hc).
    cbn [Py.bind fst snd Grid.set_levels Grid.grid_levels Grid.is_running].
    split; [reflexivity|].
    assert (Hlen : forall f : Z -> Grid.GridLevel,
              Z.of_nat (List.length
                          (map f (Grid.range (Grid.grid_count self + 1))))
              = (Grid.grid_count self + 1)%Z).
    { intros f. unfold Grid.range. rewrite !length_map, length_seq. lia. }
    split; [apply Hlen|].
    assert (Hall : forall (f : Z -> float) (idx : list Z),
              Forall (fun l => Grid.is_buy l = true
                               /\ Grid.is_filled l = false)
                     (map (fun i => Grid.new_level (f i)) idx)).
    { intros f idx. induction idx; constructor; [split; reflexivity | auto]. }
    split; [apply Hall|]. split; [|reflexivity].
    unfold Grid.get_active_orders_count. cbn [Grid.grid_levels].
    assert (Hkeep : forall (f : Z -> Grid.GridLevel) (idx : list Z),
              (forall i, Grid.is_filled (f i) = false) ->
              filter (fun l => negb (Grid.is_filled l)) (map f idx)
              = map f idx).
    { intros f idx Hf. induction idx as [|i idx IH]; [reflexivity|].
      cbn [map filter]. rewrite Hf, IH. reflexivity. }
    cbn [Grid.grid_levels Grid.set_levels].
    rewrite Hkeep by reflexivity. apply Hlen.
  - intros H0. unfold Grid.initialize, Grid._build_grid.
    rewrite Hty, H0. reflexivity.
Qed.

Lemma arithmetic_grid_build_witness :
  let pow := fun _ _ : float => Py.Raise (A := float) Py.ZeroDivisionError in
  let g := fst (Grid.initialize pow scenario_grid) in
  snd (Grid.initialize pow scenario_grid) = Py.Ok tt
  /\ Grid.get_active_orders_count g = 11%Z.
Proof.
  intros pow g.
  destruct (arithmetic_grid_build pow scenario_grid eq_refl) as [H _].
  assert (Hc : (1 <= Grid.grid_count scenario_grid <= 200)%Z)
    by (cbn; lia).
  destruct (H Hc) as [H1 [_ [_ [H2 _]]]].
  split; [exact H1 | exact H2].
Defined.

(** X15.  The trigger gate: with a trigger price set and the grid not yet
    active, a tick with a non-zero price below the trigger returns nothing
    and leaves the levels and the gate as they were; and a grid that is
    active stays active on every tick. *)
Theorem grid_trigger_gate :
  forall (pr : Py.printer) (self : Grid.GridStrategy) (t : Strategy.Tick),
    (Grid.has_trigger self = true ->
     Grid.is_active self = false ->
     Py.truthy (Strategy.get_price t) = true ->
     Py.ge (Strategy.get_price t)
           (Strategy.get_or_zero (Grid.trigger_price self)) = false ->
     snd (Grid.on_tick pr self t) = None
     /\ Grid.grid_levels (fst (Grid.on_tick pr self t))
        = Grid.grid_levels self
     /\ Grid.is_active (fst (Grid.on_tick pr self t)) = false)
    /\ (Grid.is_active self = true ->
        Grid.is_active (fst (Grid.on_tick pr self t)) = true).
Proof.
  intros pr self t. split.
  - intros Htr Hact Hp Hge. unfold Grid.on_tick.
    rewrite Hp, Htr, Hact, Hge. cbn. repeat split.
  - intros Hact. unfold Grid.on_tick.
    destruct (negb (Py.truthy _)); cbn [fst]; [exact Hact|].
    rewrite Hact. cbn [negb andb]. rewrite andb_false_r. cbn.
    destruct (_ || _); reflexivity.
Qed.

Lemma grid_trigger_gate_witness :
  let g := fst (Grid.initialize (fun _ _ => Py.Raise Py.ZeroDivisionError)
                  (Grid.init "BTCUSDT" None 110%float 100%float 10 1%float
                     (Some 105%float))) in
  snd (Grid.on_tick plain_printer g (Strategy.tick 101%float)) = None
  /\ Grid.is_active (fst (Grid.on_tick plain_printer g
                            (Strategy.tick 101%float))) = false
  /\ Grid.is_active
       (fst (Grid.on_tick plain_printer
               (fst (Grid.on_tick plain_printer g (Strategy.tick 106%float)))
               (Strategy.tick 101%float))) = true.
Proof.
  intros g.
  destruct (grid_trigger_gate plain_printer g (Strategy.tick 101%float))
    as [H1 _].
  destruct (H1 eq_refl eq_refl eq_refl eq_refl) as [Ha [_ Hb]].
  split; [exact Ha|]. split; [exact Hb|].
  destruct (grid_trigger_gate plain_printer
              (fst (Grid.on_tick plain_printer g (Strategy.tick 106%float)))
              (Strategy.tick 101%float)) as [_ H2].
  apply H2. reflexivity.
Defined.

(* ------------------------------------------------------------------ *)
(** ** DCA strategy: further properties                                 *)
(* ------------------------------------------------------------------ *)

Lemma ladder_shape self n :
  forall i dev sz,
    map DCA.order_num (DCA.ladder self n i dev sz)
    = map (fun k => (i + Z.of_nat k + 1)%Z) (seq 0 n)
    /\ Forall (fun so => DCA.is_filled so = false
                         /\ DCA.trigger_price so = 0%float)
              (DCA.ladder self n i dev sz).
Proof.
  induction n as [|n IH]; intros i dev sz; cbn [DCA.ladder seq map].
  - split; [reflexivity | constructor].
  - destruct (IH (i + 1)%Z
                (dev + DCA.price_deviation self * DCA.step_scale self)%float
                (sz * DCA.volume_scale self)%float) as [H1 H2].
    split.
    + cbn [DCA.order_num]. rewrite H1, <- seq_shift, map_map.
      f_equal; [lia|]. apply map_ext. intros k. lia.
    + constructor; [split; reflexivity | exact H2].
Qed.

(** X16.  The safety-order ladder built by [initialize] has
    [max_safety_orders] rungs (none when that number is zero or negative),
    numbered 1, 2, ... in order; every rung is unfilled, has no trigger
    price yet, and the first one carries [price_deviation] and
    [safety_order_size]. *)
Theorem dca_ladder_shape :
  forall (self : DCA.DCAStrategy),
    let sos := DCA.safety_orders (DCA.initialize self) in
    List.length sos = Z.to_nat (DCA.max_safety_orders self)
    /\ map DCA.order_num sos
       = map (fun k => (Z.of_nat k + 1)%Z)
             (seq 0 (Z.to_nat (DCA.max_safety_orders self)))
    /\ Forall (fun so => DCA.is_filled so = false
                         /\ DCA.trigger_price so = 0%float) sos
    /\ (forall so rest, sos = so :: rest ->
          DCA.deviation_percent so = DCA.price_deviation self
          /\ DCA.size so = DCA.safety_order_size self).
Proof.
  intros self sos. subst sos.
  cbn [DCA.initialize DCA.with_state DCA.safety_orders].
  unfold DCA._build_safety_orders.
  destruct (ladder_shape self (Z.to_nat (DCA.max_safety_orders self)) 0
              (DCA.price_deviation self) (DCA.safety_order_size self))
    as [H1 H2].
  split.
  - rewrite <- (length_map DCA.order_num), H1, length_map, length_seq.
    reflexivity.
  - split; [exact H1|]. split; [exact H2|].
    intros so rest Heq.
    destruct (Z.to_nat (DCA.max_safety_orders self)); cbn [DCA.ladder] in Heq;
      [discriminate|].
    injection Heq as <- _. split; reflexivity.
Qed.

Lemma dca_scan_facts self p sos :
  List.length (fst (DCA.scan self p sos)) = List.length sos
  /\ (DCARun.filled (fst (DCA.scan self p sos))
      = DCARun.filled sos
        + match snd (DCA.scan self p sos) with
          | Some _ => 1
          | None => 0
          end)%nat
  /\ (forall s, snd (DCA.scan self p sos) = Some s ->
        DCARun.is_safety s = true /\ DCARun.is_base s = false).
Proof.
  unfold DCARun.filled.
  induction sos as [|so rest IH]; cbn [DCA.scan].
  - repeat split; discriminate.
  - destruct IH as [IH1 [IH2 IH3]].
    destruct (DCA.is_filled so) eqn:Ef.
    + cbn [fst snd filter List.length]. rewrite Ef. cbn [List.length].
      split; [lia|]. split; [lia | exact IH3].
    + destruct (Py.le p (DCA.trigger_price so)).
      * cbn [fst snd filter List.length DCA.is_filled]. rewrite Ef.
        split; [reflexivity|]. split; [lia|].
        intros s Hs. injection Hs as <-. split; reflexivity.
      * cbn [fst snd filter List.length]. rewrite Ef.
        split; [lia|]. split; [exact IH2 | exact IH3].
Qed.

Lemma update_triggers_facts p sos :
  List.length (DCA._update_safety_triggers p sos) = List.length sos
  /\ DCARun.filled (DCA._update_safety_triggers p sos) = DCARun.filled sos.
Proof.
  unfold DCA._update_safety_triggers, DCARun.filled.
  split; [apply length_map|].
  induction sos as [|so rest IH]; [reflexivity|].
  cbn [map filter DCA.is_filled]. destruct (DCA.is_filled so);
    cbn [List.length]; rewrite IH; reflexivity.
Qed.

Lemma dca_on_tick_balanced pr self t :
  DCARun.balanced self (DCA.on_tick pr self t).
Proof.
  assert (Hsame : forall p r,
            DCARun.one_if DCARun.is_safety
              (DCARun.output (DCA.set_price self p, r)) = 0 ->
            DCARun.one_if DCARun.is_base
              (DCARun.output (DCA.set_price self p, r)) = 0 ->
            DCARun.balanced self (DCA.set_price self p, r)).
  { intros p r Hs Hb. unfold DCARun.balanced. rewrite Hs, Hb.
    unfold DCA.set_price.
    cbn [fst DCA.with_state DCA.safety_orders DCA.base_order_filled].
    repeat split; lia. }
  assert (Hscan : forall p,
            DCARun.balanced self (DCA.check_safety_orders self p)).
  { intros p. unfold DCARun.balanced, DCA.check_safety_orders, DCARun.output.
    cbn [fst snd DCA.with_state DCA.safety_orders DCA.base_order_filled].
    destruct (dca_scan_facts self p (DCA.safety_orders self))
      as [H1 [H2 H3]].
    split; [exact H1|].
    destruct (snd (DCA.scan self p (DCA.safety_orders self))) as [s|].
    - destruct (H3 s eq_refl) as [Hs Hnb]. cbn [DCARun.one_if].
      rewrite Hs, Hnb. cbn [Nat.b2n]. split; lia.
    - cbn [DCARun.one_if]. split; lia. }
  unfold DCA.on_tick.
  destruct (Py.truthy (Strategy.get_price t)); cbn [negb].
  2:{ unfold DCARun.balanced, DCARun.output.
      cbn [fst snd DCARun.one_if]. repeat split; lia. }
  destruct (DCA.base_order_filled self) eqn:Hb; cbn [negb].
  2:{ unfold DCARun.balanced, DCARun.output.
      cbn [fst snd DCA.with_state DCA.safety_orders DCA.base_order_filled].
      destruct (update_triggers_facts (Strategy.get_price t)
                  (DCA.safety_orders self)) as [H1 H2].
      rewrite Hb. split; [exact H1|]. split; [cbn; lia | reflexivity]. }
  destruct (Py.gt (DCA.total_quantity self) 0%float); [|apply Hscan].
  destruct (Py.truediv _ _) as [q|e].
  - destruct (Py.ge _ _); [apply Hsame; reflexivity|].
    destruct (_ && _); [apply Hsame; reflexivity | apply Hscan].
  - apply Hsame; reflexivity.
Qed.

Lemma count_cons f o rs :
  DCARun.count f (o :: rs)
  = (DCARun.one_if f o + DCARun.count f rs)%nat.
Proof.
  unfold DCARun.count, DCARun.one_if. cbn [filter].
  destruct o as [s|]; [destruct (f s)|]; reflexivity.
Qed.

Lemma filled_le_length sos :
  (DCARun.filled sos <= List.length sos)%nat.
Proof. apply filter_length_le. Qed.

Lemma dca_run_balanced pr ts :
  forall self,
    let r := DCARun.on_ticks pr self ts in
    List.length (DCA.safety_orders (fst r))
    = List.length (DCA.safety_orders self)
    /\ DCARun.filled (DCA.safety_orders (fst r))
       = (DCARun.filled (DCA.safety_orders self)
          + DCARun.count DCARun.is_safety (snd r))%nat
    /\ Nat.b2n (DCA.base_order_filled (fst r))
       = (Nat.b2n (DCA.base_order_filled self)
          + DCARun.count DCARun.is_base (snd r))%nat.
Proof.
  induction ts as [|t ts IH]; intros self.
  - cbn. repeat split; lia.
  - cbn [DCARun.on_ticks fst snd]. cbv zeta.
    destruct (dca_on_tick_balanced pr self t) as [H1 [H2 H3]].
    destruct (IH (fst (DCA.on_tick pr self t))) as [I1 [I2 I3]].
    fold (DCARun.output (DCA.on_tick pr self t)).
    rewrite !count_cons. repeat split; lia.
Qed.

(** X17.  Each safety order fires at most once: over any tick sequence the
    number of filled rungs grows by exactly the number of safety-order
    signals returned, the ladder keeps its length, and so the strategy
    never returns more safety-order signals than it has unfilled rungs. *)
Theorem dca_safety_orders_fire_once :
  forall (pr : Py.printer) (self : DCA.DCAStrategy)
         (ts : list Strategy.Tick),
    let r := DCARun.on_ticks pr self ts in
    DCARun.filled (DCA.safety_orders (fst r))
    = (DCARun.filled (DCA.safety_orders self)
       + DCARun.count DCARun.is_safety (snd r))%nat
    /\ List.length (DCA.safety_orders (fst r))
       = List.length (DCA.safety_orders self)
    /\ (DCARun.count DCARun.is_safety (snd r)
        + DCARun.filled (DCA.safety_orders self)
        <= List.length (DCA.safety_orders self))%nat.
Proof.
  intros pr self ts r.
  destruct (dca_run_balanced pr ts self) as [H1 [H2 _]]. fold r in H1, H2.
  split; [exact H2|]. split; [exact H1|].
  pose proof (filled_le_length (DCA.safety_orders (fst r))). lia.
Qed.

(** X18.  The base order is placed exactly once: over any tick sequence a
    strategy whose base order is already placed returns no base-order
    signal, and one that has not placed it returns exactly one if some
    tick carries a non-zero price and none otherwise; the flag, once set,
    stays set. *)
Theorem dca_base_order_once :
  forall (pr : Py.printer) (self : DCA.DCAStrategy)
         (ts : list Strategy.Tick),
    let r := DCARun.on_ticks pr self ts in
    DCA.base_order_filled (fst r)
    = DCA.base_order_filled self
      || existsb (fun t => Py.truthy (Strategy.get_price t)) ts
    /\ DCARun.count DCARun.is_base (snd r)
       = (if DCA.base_order_filled self then 0
          else if existsb (fun t => Py.truthy (Strategy.get_price t)) ts
               then 1 else 0)%nat.
Proof.
  intros pr self ts r.
  assert (Hflag : forall ts self,
            DCA.base_order_filled (fst (DCARun.on_ticks pr self ts))
            = DCA.base_order_filled self
              || existsb (fun t => Py.truthy (Strategy.get_price t)) ts).
  { clear. induction ts as [|t ts IH]; intros self.
    - cbn. rewrite orb_false_r. reflexivity.
    - cbn [DCARun.on_ticks fst existsb]. rewrite IH. clear IH.
      rewrite orb_assoc. f_equal.
      unfold DCA.on_tick.
      destruct (Py.truthy (Strategy.get_price t)); cbn [negb].
      + destruct (DCA.base_order_filled self) eqn:Hb; cbn [negb];
          [|reflexivity].
        destruct (Py.gt _ _).
        * destruct (Py.truediv _ _); [|cbn; rewrite Hb; reflexivity].
          destruct (Py.ge _ _); [cbn; rewrite Hb; reflexivity|].
          destruct (_ && _); cbn; rewrite Hb; reflexivity.
        * cbn. rewrite Hb. reflexivity.
      + cbn. rewrite orb_false_r. reflexivity. }
  split; [apply Hflag|].
  destruct (dca_run_balanced pr ts self) as [_ [_ H3]]. fold r in H3.
  unfold r in H3 at 1. rewrite Hflag in H3.
  destruct (DCA.base_order_filled self);
    [|destruct (existsb _ ts)]; cbn in H3; lia.
Qed.

(** X19.  The first fill reported to a strategy with no quantity so far
    raises [ZeroDivisionError] when the notification carries no quantity
    or a quantity of zero: the totals stay at zero and the average is left
    as it was. *)
Theorem first_fill_without_quantity_raises :
  forall (self : DCA.DCAStrategy) (order : Strategy.Fill),
    DCA.total_quantity self = 0%float ->
    Strategy.fill_quantity order = None
    \/ Strategy.fill_quantity order = Some 0%float ->
    snd (DCA.on_order_filled self order) = Py.Raise Py.ZeroDivisionError
    /\ DCA.total_quantity (fst (DCA.on_order_filled self order)) = 0%float
    /\ DCA.average_entry (fst (DCA.on_order_filled self order))
       = DCA.average_entry self.
Proof.
  intros self order Hq Hfill.
  unfold DCA.on_order_filled, Py.truediv. rewrite Hq.
  assert (Hz : Strategy.get_or_zero (Strategy.fill_quantity order) = 0%float)
    by (destruct Hfill as [-> | ->]; reflexivity).
  rewrite Hz.
  replace (PrimFloat.eqb (0 + 0) 0)%float with true by reflexivity.
  cbn. repeat split.
Qed.

Lemma first_fill_without_quantity_raises_witness :
  snd (DCA.on_order_filled
         (DCA.initialize
            (DCA.init "BTCUSDT" 1%float 1%float None None None None None None))
         {| Strategy.fill_quantity := None;
            Strategy.fill_price := Some 100%float |})
  = Py.Raise Py.ZeroDivisionError.
Proof.
  destruct (first_fill_without_quantity_raises
              (DCA.initialize
                 (DCA.init "BTCUSDT" 1%float 1%float None None None None None
                    None))
              {| Strategy.fill_quantity := None;
                 Strategy.fill_price := Some 100%float |}
              eq_refl (or_introl eq_refl)) as [H _].
  exact H.
Defined.

(* ------------------------------------------------------------------ *)
(** ** Orders: further properties                                       *)
(* ------------------------------------------------------------------ *)

(** X20.  [cancel_order] succeeds exactly for the statuses [open],
    [partial] and [submitted] (so a [pending] order cannot be cancelled),
    publishing one event; and whatever the first call did, cancelling the
    order it leaves raises [ValueError] and changes nothing more: no order
    is cancelled twice and no second event is published. *)
Theorem cancel_order_at_most_once :
  forall (self : Orders.OrderService) (order : Orders.Order)
         (now : Z) (uuid : string) (now_event : Z)
         (now2 : Z) (uuid2 : string) (now_event2 : Z),
    let r := Orders.cancel_order self order now uuid now_event in
    let self1 := fst (fst r) in
    let order1 := snd (fst r) in
    (Orders.is_open order = true <->
     Orders.status order = Orders.OPEN
     \/ Orders.status order = Orders.PARTIAL
     \/ Orders.status order = Orders.SUBMITTED)
    /\ (snd r = Py.Ok order1 <-> Orders.is_open order = true)
    /\ List.length (Orders.published self1)
       = (List.length (Orders.published self)
          + (if Orders.is_open order then 1 else 0))%nat
    /\ Orders.cancel_order self1 order1 now2 uuid2 now_event2
       = (self1, order1,
          Py.Raise (Py.ValueError
                      ("Cannot cancel order with status: "
                         ++ Orders.value (Orders.status order1)))).
Proof.
  intros self order now uuid now_event now2 uuid2 now_event2 r self1 order1.
  subst self1 order1 r. split.
  - unfold Orders.is_open. destruct (Orders.status order);
      split; intros H; try discriminate; auto;
      destruct H as [H|[H|H]]; discriminate.
  - assert (Hfail : forall s o, Orders.is_open o = false ->
              Orders.cancel_order s o now2 uuid2 now_event2
              = (s, o,
                 Py.Raise (Py.ValueError
                             ("Cannot cancel order with status: "
                                ++ Orders.value (Orders.status o))))).
    { intros s o Ho. unfold Orders.cancel_order. rewrite Ho. reflexivity. }
    remember (Orders.cancel_order self order now uuid now_event) as r eqn:Hr.
    unfold Orders.cancel_order in Hr.
    destruct (Orders.is_open order) eqn:E; cbn [negb] in Hr; subst r;
      cbn [fst snd].
    + split; [split; reflexivity|]. split.
      * cbn. rewrite length_app. reflexivity.
      * apply Hfail. reflexivity.
    + split; [split; discriminate|]. split; [lia|].
      apply Hfail. exact E.
Qed.



Lemma get_found t order_id o :
  OrderOps.get t order_id = Some o -> In o t /\ Orders.id o = order_id.
Proof.
  unfold OrderOps.get. intros H. apply find_some in H.
  destruct H as [Hin He]. split; [exact Hin|].
  apply String.eqb_eq. exact He.
Qed.

Lemma get_put t order_id o o' :
  OrderOps.get t order_id = Some o -> Orders.id o' = Orders.id o ->
  OrderOps.get (OrderOps.put t o') order_id = Some o'.
Proof.
  unfold OrderOps.get, OrderOps.put. intros H Hid.
  induction t as [|r t IH]; [discriminate|].
  cbn [find map] in *.
  destruct (String.eqb_spec (Orders.id r) order_id) as [Er|Er].
  - injection H as Hr. subst r.
    rewrite Hid, String.eqb_refl. cbn [find].
    rewrite Hid, Er, String.eqb_refl. reflexivity.
  - assert (Ho : Orders.id o = order_id).
    { apply find_some in H. apply String.eqb_eq. exact (proj2 H). }
    destruct (String.eqb_spec (Orders.id r) (Orders.id o')) as [Eo|Eo];
      [congruence|].
    cbn [find].
    destruct (String.eqb_spec (Orders.id r) order_id); [contradiction|].
    apply IH. exact H.
Qed.

(** X22.  The cancel route never touches another user's order: for an
    order of someone else it answers 404 "Order not found", the answer it
    gives for an unknown id, and leaves the table as it was.  For the
    owner's own open order it sets the status to [cancelled] but, unlike
    [OrderService.cancel_order], leaves [cancelled_at] as it was. *)
Theorem cancel_route_checks_owner :
  forall (t : OrderOps.Table) (order_id current_user : string)
         (o : Orders.Order),
    OrderOps.get t order_id = Some o ->
    (Orders.user_id o <> current_user ->
     OrderOps.cancel_route t order_id current_user
     = (t, OrderOps.HTTPException 404 "Order not found"))
    /\ (Orders.user_id o = current_user -> Orders.is_open o = true ->
        exists o',
          snd (OrderOps.cancel_route t order_id current_user)
          = OrderOps.Message "Order cancelled"
          /\ OrderOps.get (fst (OrderOps.cancel_route t order_id current_user))
               order_id = Some o'
          /\ Orders.status o' = Orders.CANCELLED
          /\ Orders.cancelled_at o' = Orders.cancelled_at o
          /\ Orders.user_id o' = Orders.user_id o)
    /\ (Orders.user_id o = current_user -> Orders.is_open o = false ->
        OrderOps.cancel_route t order_id current_user
        = (t, OrderOps.HTTPException 400 "Order is not open")).
Proof.
  intros t order_id current_user o Hget.
  unfold OrderOps.cancel_route. rewrite Hget. split; [|split].
  - intros Hne. destruct (String.eqb_spec (Orders.user_id o) current_user);
      [contradiction | reflexivity].
  - intros Hu Hopen. rewrite Hu, String.eqb_refl, Hopen. cbn [negb fst snd].
    eexists. split; [reflexivity|]. split.
    + apply (get_put t order_id o); [exact Hget | reflexivity].
    + cbn. repeat split.
  - intros Hu Hopen. rewrite Hu, String.eqb_refl, Hopen. reflexivity.
Qed.

Lemma cancel_route_checks_owner_witness :
  OrderOps.cancel_route [sample_order Orders.OPEN] "o-1" "u-2"
  = ([sample_order Orders.OPEN],
     OrderOps.HTTPException 404 "Order not found")
  /\ OrderOps.cancel_route [sample_order Orders.FILLED] "o-1" "u-1"
     = ([sample_order Orders.FILLED],
        OrderOps.HTTPException 400 "Order is not open").
Proof.
  split.
  - destruct (cancel_route_checks_owner [sample_order Orders.OPEN]
                "o-1" "u-2" (sample_order Orders.OPEN) eq_refl) as [H _].
    apply H. discriminate.
  - destruct (cancel_route_checks_owner [sample_order Orders.FILLED]
                "o-1" "u-1" (sample_order Orders.FILLED) eq_refl)
      as [_ [_ H]].
    apply H; reflexivity.
Defined.


(* ------------------------------------------------------------------ *)
(** ** Pagination                                                       *)
(* ------------------------------------------------------------------ *)

(** [get_pagination] clamps whatever it is given: the page is at
    least 1, the page size lies between 1 and 100, the offset is
    [(page - 1) * page_size] and never negative; a page of at least 1 and
    a page size between 1 and 100 are kept as given. *)
Theorem get_pagination_bounds :
  forall (p ps : Z),
    let g := Paging.get_pagination p ps in
    (1 <= Paging.page g)%Z
    /\ (1 <= Paging.page_size g <= 100)%Z
    /\ (0 <= Paging.offset g)%Z
    /\ Paging.offset g = ((Paging.page g - 1) * Paging.page_size g)%Z
    /\ Paging.page g = (if (p <? 1)%Z then 1 else p)%Z
    /\ Paging.page_size g
       = (if (ps <? 1)%Z then 1 else if (100 <? ps)%Z then 100 else ps)%Z.
Proof.
  intros p ps g. subst g.
  unfold Paging.get_pagination, Paging.init.
  cbn [Paging.page Paging.page_size Paging.offset].
  destruct (Z.ltb_spec p 1), (Z.ltb_spec ps 1), (Z.ltb_spec 100 ps);
    repeat split; try lia; try nia.
Qed.

(* ------------------------------------------------------------------ *)
(** ** Candle buffer                                                    *)
(* ------------------------------------------------------------------ *)

Lemma on_candle_last_n (candle : Type) (l : list candle) (c : candle) :
  Candles.on_candle candle (Candles.last_n candle 500 l) c
  = Candles.last_n candle 500 (l ++ [c]).
Proof.
  unfold Candles.on_candle, Candles.last_n.
  destruct (Nat.le_gt_cases (List.length l) 500) as [Hle|Hgt].
  - replace (List.length l - 500)%nat with 0%nat by lia. cbn [skipn].
    destruct (Nat.ltb_spec 500 (List.length (l ++ [c]))); [reflexivity|].
    replace (List.length (l ++ [c]) - 500)%nat with 0%nat by lia.
    reflexivity.
  - assert (Hl' : List.length (skipn (List.length l - 500) l) = 500%nat)
      by (rewrite length_skipn; lia).
    rewrite !length_app, Hl'. cbn [List.length Nat.add].
    rewrite skipn_app, skipn_skipn, Hl'.
    rewrite skipn_app.
    replace (500 <? 501)%nat with true by reflexivity.
    replace (List.length l + 1 - 500 - List.length l)%nat with 0%nat by lia.
    replace (501 - 500 - 500)%nat with 0%nat by lia.
    replace (501 - 500 + (List.length l - 500))%nat
      with (List.length l + 1 - 500)%nat by lia.
    reflexivity.
Qed.

(** X24.  The candle buffer of a strategy holds the most recent 500
    candles: starting empty, after any number of [on_candle] calls it is
    the last 500 of the candles received (all of them when fewer), and it
    never holds more than 500. *)
Theorem candle_buffer_keeps_last_500 :
  forall (candle : Type) (cs : list candle),
    Candles.on_candles candle [] cs = Candles.last_n candle 500 cs
    /\ List.length (Candles.on_candles candle [] cs)
       = Nat.min 500 (List.length cs).
Proof.
  intros candle cs.
  assert (H : forall cs l,
            Candles.on_candles candle (Candles.last_n candle 500 l) cs
            = Candles.last_n candle 500 (l ++ cs)).
  { clear. induction cs as [|c cs IH]; intros l.
    - rewrite app_nil_r. reflexivity.
    - cbn [Candles.on_candles fold_left]. rewrite on_candle_last_n.
      unfold Candles.on_candles in IH. rewrite IH, <- app_assoc.
      reflexivity. }
  specialize (H cs []). cbn in H. split; [exact H|].
  rewrite H. unfold Candles.last_n. rewrite length_skipn. lia.
Qed.

(* ------------------------------------------------------------------ *)
(** ** Topic patterns and handler registries                            *)
(* ------------------------------------------------------------------ *)

Lemma has_star_app a b :
  Bus.has_star (a ++ b) = Bus.has_star a || Bus.has_star b.
Proof.
  induction a as [|c a IH]; cbn [append Bus.has_star]; [reflexivity|].
  rewrite IH, orb_assoc. reflexivity.
Qed.

Lemma before_star_app pre suf :
  Bus.has_star pre = false ->
  Bus.before_star (pre ++ String "*" suf) = pre.
Proof.
  induction pre as [|c pre IH]; cbn [append Bus.has_star Bus.before_star].
  - reflexivity.
  - intros H. apply orb_false_iff in H. destruct H as [Hc Hp].
    rewrite Hc, (IH Hp). reflexivity.
Qed.

Lemma after_star_app pre suf :
  Bus.has_star pre = false ->
  BackendBus.after_star (pre ++ String "*" suf) = suf.
Proof.
  induction pre as [|c pre IH];
    cbn [append Bus.has_star BackendBus.after_star].
  - reflexivity.
  - intros H. apply orb_false_iff in H. destruct H as [Hc Hp].
    rewrite Hc. exact (IH Hp).
Qed.

Lemma substring_none n s : String.substring n 0 s = "".
Proof.
  revert s. induction n as [|n IH]; intros [|c s]; cbn; auto.
Qed.

Lemma endswith_empty s : BackendBus.endswith s "" = true.
Proof.
  unfold BackendBus.endswith. cbn [String.length Nat.leb].
  rewrite substring_none. reflexivity.
Qed.

(** X25.  How the two buses read a pattern.  Without a star both compare
    for equality.  With one star the strategy-engine bus only looks at
    what precedes the star, while the backend bus also requires the event
    type to end with what follows it; so the two agree on the patterns
    with a single trailing star (and on "*", which matches everything). *)
Theorem wildcard_matching :
  forall (ty : string),
    (forall p, Bus.has_star p = false ->
       Bus._matches ty p = String.eqb ty p
       /\ BackendBus._matches_pattern ty p = String.eqb ty p)
    /\ (forall pre suf,
          Bus.has_star pre = false -> Bus.has_star suf = false ->
          Bus._matches ty (pre ++ "*" ++ suf) = String.prefix pre ty
          /\ BackendBus._matches_pattern ty (pre ++ "*" ++ suf)
             = String.prefix pre ty && BackendBus.endswith ty suf)
    /\ (forall pre,
          Bus.has_star pre = false ->
          Bus._matches ty (pre ++ "*")
          = BackendBus._matches_pattern ty (pre ++ "*")).
Proof.
  intros ty.
  assert (H1 : forall pre suf,
             Bus.has_star pre = false -> Bus.has_star suf = false ->
             Bus._matches ty (pre ++ "*" ++ suf) = String.prefix pre ty
             /\ BackendBus._matches_pattern ty (pre ++ "*" ++ suf)
                = String.prefix pre ty && BackendBus.endswith ty suf).
  { intros pre suf Hpre Hsuf.
    change ("*" ++ suf) with (String "*" suf).
    assert (Hs : Bus.has_star (pre ++ String "*" suf) = true).
    { rewrite has_star_app. cbn. rewrite orb_true_r. reflexivity. }
    split.
    - unfold Bus._matches. rewrite Hs, (before_star_app _ _ Hpre).
      reflexivity.
    - unfold BackendBus._matches_pattern.
      rewrite Hs, (before_star_app _ _ Hpre), (after_star_app _ _ Hpre), Hsuf.
      cbn [negb].
      destruct (String.eqb_spec (pre ++ String "*" suf) "*") as [E|E];
        [|reflexivity].
      destruct pre as [|c pre].
      + cbn in E. injection E as ->. rewrite endswith_empty.
        destruct ty; reflexivity.
      + cbn in E. injection E as -> E. destruct pre; discriminate. }
  split; [|split; [exact H1|]].
  - intros p Hp. unfold Bus._matches, BackendBus._matches_pattern.
    rewrite Hp. cbn [negb].
    destruct (String.eqb_spec p "*") as [->|_]; [discriminate|].
    split; reflexivity.
  - intros pre Hpre.
    destruct (H1 pre "" Hpre eq_refl) as [Ha Hb].
    change (pre ++ "*" ++ "") with (pre ++ "*") in Ha, Hb.
    rewrite Ha, Hb, endswith_empty, andb_true_r. reflexivity.
Qed.

Lemma wildcard_matching_witness :
  Bus._matches "order.filled" "order.*" = true
  /\ BackendBus._matches_pattern "order.filled" "order.*" = true
  /\ Bus._matches "order.filled" "order.*.done" = true
  /\ BackendBus._matches_pattern "order.filled" "order.*.done" = false.
Proof.
  destruct (wildcard_matching "order.filled") as [_ [H _]].
  destruct (H "order." "" eq_refl eq_refl) as [H1 H2].
  destruct (H "order." ".done" eq_refl eq_refl) as [H3 H4].
  split; [exact H1|]. split; [exact H2|]. split; [exact H3 | exact H4].
Defined.

Lemma remove_first_appended h l :
  ~ In h l -> BackendBus.remove_first h (l ++ [h]) = Some l.
Proof.
  induction l as [|x l IH]; intros Hn; cbn [app BackendBus.remove_first].
  - rewrite Nat.eqb_refl. reflexivity.
  - destruct (Nat.eqb_spec x h) as [->|Hx].
    + exfalso. apply Hn. left. reflexivity.
    + rewrite IH; [reflexivity|]. intros Hin. apply Hn. right. exact Hin.
Qed.

Lemma remove_first_absent h l :
  ~ In h l -> BackendBus.remove_first h l = None.
Proof.
  induction l as [|x l IH]; intros Hn; cbn [BackendBus.remove_first].
  - reflexivity.
  - destruct (Nat.eqb_spec x h) as [->|Hx].
    + exfalso. apply Hn. left. reflexivity.
    + rewrite IH; [reflexivity|]. intros Hin. apply Hn. right. exact Hin.
Qed.

(** X26.  Subscribing a handler to a pattern under which it is not yet
    subscribed and unsubscribing it again gives back the registry exactly
    as it was, pattern order included.  Unsubscribing from a pattern that
    has no entry does nothing; unsubscribing a handler that is not listed
    under an existing pattern raises [ValueError]. *)
Theorem subscribe_unsubscribe_round_trip :
  forall (r : BackendBus.Registry) (p : string) (h : nat),
    Forall (fun pl => snd pl <> []) r ->
    (forall l, In (p, l) r -> ~ In h l) ->
    BackendBus.unsubscribe (BackendBus.subscribe r p h) p h = Py.Ok r
    /\ (~ In p (map fst r) -> BackendBus.unsubscribe r p h = Py.Ok r)
    /\ (In p (map fst r) ->
        BackendBus.unsubscribe r p h
        = Py.Raise (Py.ValueError "list.remove(x): x not in list")).
Proof.
  induction r as [|[p0 l0] r IH]; intros p h Hwf Hfresh.
  - split; [|split].
    + cbn [BackendBus.subscribe BackendBus.unsubscribe].
      rewrite String.eqb_refl. cbn [BackendBus.remove_first].
      rewrite Nat.eqb_refl. reflexivity.
    + reflexivity.
    + intros [].
  - inversion Hwf as [|x y Hl0 Hr]; subst. cbn [snd] in Hl0.
    assert (Hfresh' : forall l, In (p, l) r -> ~ In h l).
    { intros l Hin. apply Hfresh. right. exact Hin. }
    destruct (IH p h Hr Hfresh') as [IH1 [IH2 IH3]].
    cbn [BackendBus.subscribe BackendBus.unsubscribe map fst].
    destruct (String.eqb_spec p0 p) as [->|Hne].
    + assert (Hh : ~ In h l0) by (apply Hfresh; left; reflexivity).
      split; [|split].
      * cbn [BackendBus.unsubscribe]. rewrite String.eqb_refl.
        rewrite (remove_first_appended h l0 Hh).
        destruct l0; [contradiction | reflexivity].
      * intros Hn. exfalso. apply Hn. left. reflexivity.
      * intros _. rewrite (remove_first_absent h l0 Hh). reflexivity.
    + split; [|split].
      * cbn [BackendBus.unsubscribe].
        destruct (String.eqb_spec p0 p); [contradiction|].
        rewrite IH1. reflexivity.
      * intros Hn. rewrite IH2; [reflexivity|].
        intros Hin. apply Hn. right. exact Hin.
      * intros Hin. rewrite IH3; [reflexivity|].
        destruct Hin as [E|Hin]; [contradiction | exact Hin].
Qed.

Lemma subscribe_unsubscribe_round_trip_witness :
  BackendBus.unsubscribe
    (BackendBus.subscribe [("order.*", [1; 2]); ("risk.alert", [3])]
       "order.*" 7)
    "order.*" 7
  = Py.Ok [("order.*", [1; 2]); ("risk.alert", [3])].
Proof.
  destruct (subscribe_unsubscribe_round_trip
              [("order.*", [1; 2]); ("risk.alert", [3])] "order.*" 7)
    as [H _].
  - repeat constructor; discriminate.
  - intros l [E|[E|[]]]; [injection E as <- | discriminate E].
    intros [E|[E|[]]]; discriminate.
  - exact H.
Defined.

(* ------------------------------------------------------------------ *)
(** ** Strategy-engine event bus: further properties                    *)
(* ------------------------------------------------------------------ *)





(** X28.  [subscribe] adds exactly one call: for a channel that the
    pattern matches, the handlers selected afterwards are those selected
    before plus the new handler once more (also when it was subscribed
    already, so a handler subscribed twice is called twice); for any
    other channel the selection is unchanged. *)
Theorem subscribe_adds_one_call :
  forall (W json : Type) (self : Bus.EventBus W json) (p ch : string)
         (h : Bus.Handler W json),
    let after := Bus.matching W json (Bus.subscribe W json self p h) ch in
    let before := Bus.matching W json self ch in
    (Bus._matches ch ("xor:" ++ p) = true ->
     List.length after = S (List.length before)
     /\ In h after
     /\ forall g, In g before -> In g after)
    /\ (Bus._matches ch ("xor:" ++ p) = false -> after = before).
Proof.
  intros W json [hs] p ch h after before. subst after before.
  unfold Bus.matching, Bus.subscribe. cbn [Bus.handlers].
  induction hs as [|[p0 l0] hs IH]; cbn [Bus.add_handler flat_map fst snd].
  - split.
    + intros Hm. rewrite Hm, app_nil_r. cbn.
      split; [reflexivity|]. split; [left; reflexivity | intros g []].
    + intros Hm. rewrite Hm. reflexivity.
  - destruct IH as [IHt IHf].
    destruct (String.eqb_spec p0 p) as [->|Hne]; cbn [flat_map fst snd].
    + split.
      * intros Hm. rewrite Hm. rewrite !length_app. cbn [List.length].
        split; [lia|]. split.
        -- apply in_or_app. left. apply in_or_app. right. left. reflexivity.
        -- intros g Hg. apply in_app_or in Hg. apply in_or_app.
           destruct Hg as [Hg|Hg]; [left; apply in_or_app; left | right];
             exact Hg.
      * intros Hm. rewrite Hm. reflexivity.
    + split.
      * intros Hm. destruct (IHt Hm) as [H1 [H2 H3]].
        rewrite !length_app, H1. split; [lia|]. split.
        -- apply in_or_app. right. exact H2.
        -- intros g Hg. apply in_app_or in Hg. apply in_or_app.
           destruct Hg as [Hg|Hg]; [left; exact Hg | right; apply H3, Hg].
      * intros Hm. rewrite (IHf Hm). reflexivity.
Qed.

Lemma subscribe_adds_one_call_witness :
  List.length (Bus.matching nat unit
                 (Bus.subscribe nat unit sample_bus "market.*"
                    counting_handler) "xor:market.tick") = 3%nat.
Proof.
  destruct (subscribe_adds_one_call nat unit sample_bus "market.*"
              "xor:market.tick" counting_handler) as [H _].
  destruct (H eq_refl) as [Hlen _]. exact Hlen.
Defined.

(* ------------------------------------------------------------------ *)
(** ** Strategy host                                                    *)
(* ------------------------------------------------------------------ *)

Section HostFacts.
Variables S D : Type.
Variable m : Engine.Methods S D.
Variable str_exn : Py.exn -> string.

Lemma serve_keeps_others ty sym d entries :
  forall pub lg,
    let r := Engine.serve S D m str_exn ty sym d entries pub lg in
    map fst (fst (fst (fst r))) = map fst entries
    /\ forall i bot_id s,
         nth_error entries i = Some (bot_id, s) ->
         Engine.symbol_of S D m s <> sym ->
         nth_error (fst (fst (fst r))) i = Some (bot_id, s).
Proof.
  induction entries as [|[b s0] rest IH]; intros pub lg; cbn [Engine.serve].
  - split; [reflexivity|]. intros i bot_id s H _. exact H.
  - assert (Hcons : forall s' pub' lg',
      let r := Engine.serve S D m str_exn ty sym d rest pub' lg' in
      (s' = s0 \/ Engine.symbol_of S D m s0 = sym) ->
      map fst ((b, s') :: fst (fst (fst r))) = map fst ((b, s0) :: rest)
      /\ forall i bot_id s,
           nth_error ((b, s0) :: rest) i = Some (bot_id, s) ->
           Engine.symbol_of S D m s <> sym ->
           nth_error ((b, s') :: fst (fst (fst r))) i = Some (bot_id, s)).
    { intros s' pub' lg' r Hs. destruct (IH pub' lg') as [I1 I2]. fold r in I1, I2.
      split; [cbn [map fst]; rewrite I1; reflexivity|].
      intros [|i] bot_id s Hn Hsym; cbn [nth_error] in *.
      - injection Hn as <- <-. destruct Hs as [->|Hs]; [reflexivity|].
        contradiction.
      - apply I2; assumption. }
    destruct (String.eqb_spec (Engine.symbol_of S D m s0) sym) as [E|E].
    + destruct (Engine.callback S D m ty s0 d) as [s' [[sig|]|e]].
      * specialize (Hcons s' (pub ++ [(b, sig)])%list
                      (lg ++ [Engine.emitted_msg b (Strategy.type sig)])%list
                      (or_intror E)).
        destruct (Engine.serve S D m str_exn ty sym d rest _ _)
          as [[[rest' pub'] lg'] r]. exact Hcons.
      * specialize (Hcons s' pub lg (or_intror E)).
        destruct (Engine.serve S D m str_exn ty sym d rest _ _)
          as [[[rest' pub'] lg'] r]. exact Hcons.
      * destruct (Py.is_Exception e).
        -- specialize (Hcons s' pub
                         (lg ++ [Engine.error_msg b (str_exn e)])%list
                         (or_intror E)).
           destruct (Engine.serve S D m str_exn ty sym d rest _ _)
             as [[[rest' pub'] lg'] r]. exact Hcons.
        -- cbn [fst]. split; [reflexivity|].
           intros [|i] bot_id s Hn Hsym; cbn [nth_error] in *.
           ++ injection Hn as <- <-. contradiction.
           ++ exact Hn.
    + specialize (Hcons s0 pub lg (or_introl eq_refl)).
      destruct (Engine.serve S D m str_exn ty sym d rest _ _)
        as [[[rest' pub'] lg'] r]. exact Hcons.
Qed.

Lemma serve_pointwise ty sym d entries :
  Forall (fun kv => Engine.symbol_of S D m (snd kv) = sym ->
                    Engine.well_behaved S D m ty d (snd kv)) entries ->
  forall pub lg,
    Engine.serve S D m str_exn ty sym d entries pub lg
    = (map (Engine.served S D m ty sym d) entries,
       (pub ++ Engine.signals_of S D m ty sym d entries)%list,
       (lg ++ Engine.lines_of S D m str_exn ty sym d entries)%list,
       Py.Ok tt).
Proof.
  induction 1 as [|[b s0] rest Hwb Hrest IH]; intros pub lg;
    cbn [Engine.serve map Engine.signals_of Engine.lines_of flat_map].
  - rewrite !app_nil_r. reflexivity.
  - unfold Engine.served at 1. cbn [fst snd] in *.
    unfold Engine.well_behaved in Hwb.
    fold (Engine.signals_of S D m ty sym d rest).
    fold (Engine.lines_of S D m str_exn ty sym d rest).
    destruct (String.eqb (Engine.symbol_of S D m s0) sym) eqn:E.
    + apply String.eqb_eq in E. specialize (Hwb E).
      destruct (Engine.callback S D m ty s0 d) as [s' [[sig|]|e]];
        cbn [fst snd] in *.
      * rewrite IH, <- !app_assoc. reflexivity.
      * rewrite IH. reflexivity.
      * rewrite Hwb, IH, <- !app_assoc. reflexivity.
    + rewrite IH. reflexivity.
Qed.

(** X29.  A market event only reaches the strategies of its symbol: an
    event without a symbol changes nothing; otherwise the bot ids stay as
    they were, in order, and every strategy registered for another symbol
    is left exactly as it was, whatever the strategies of the symbol do,
    even when one of them lets an exception escape. *)
Theorem market_event_reaches_its_symbol_only :
  forall (self : Engine.StrategyEngine S) (ev : Engine.MarketEvent D),
    let r := Engine._on_market_event S D m str_exn self ev in
    (Py.truthy_str (Engine.event_symbol D ev) = false ->
     r = (self, Py.Ok tt))
    /\ map fst (Engine.strategies S (fst r))
       = map fst (Engine.strategies S self)
    /\ forall i bot_id s,
         nth_error (Engine.strategies S self) i = Some (bot_id, s) ->
         Engine.symbol_of S D m s
           <> Py.str_opt (Engine.event_symbol D ev) ->
         nth_error (Engine.strategies S (fst r)) i = Some (bot_id, s).
Proof.
  intros self ev r. subst r. unfold Engine._on_market_event.
  destruct (Py.truthy_str (Engine.event_symbol D ev)); cbn [negb].
  - split; [discriminate|].
    pose proof (serve_keeps_others
                  match Engine.event_type D ev with
                  | Some t => t
                  | None => ""
                  end
                  (Py.str_opt (Engine.event_symbol D ev))
                  (Engine.event_data D ev) (Engine.strategies S self)
                  (Engine.published S self) (Engine.log S self)) as H.
    cbv zeta in H.
    destruct (Engine.serve S D m str_exn _ _ _ _ _ _)
      as [[[entries pub] lg] res].
    exact H.
  - split; [reflexivity|]. split; [reflexivity|]. intros i b s H _. exact H.
Qed.

(** X30.  One strategy's failure does not keep the others from the event,
    and it is logged: when the callbacks of the strategies of the symbol
    return or raise an [Exception], [_on_market_event] returns normally,
    every strategy of the symbol has been given the event (the one that
    raised too, left as the raise left it), the signals returned have all
    been published in order, and the log holds one line per signal and one
    error line per failure. *)
Theorem strategy_failure_is_logged_and_isolated :
  forall (self : Engine.StrategyEngine S) (ty sym : string) (d : D),
    sym <> "" ->
    Forall (fun kv => Engine.symbol_of S D m (snd kv) = sym ->
                      Engine.well_behaved S D m ty d (snd kv))
           (Engine.strategies S self) ->
    Engine._on_market_event S D m str_exn self
      {| Engine.event_type := Some ty; Engine.event_symbol := Some sym;
         Engine.event_data := d |}
    = ({| Engine.strategies :=
            map (Engine.served S D m ty sym d) (Engine.strategies S self);
          Engine.published :=
            (Engine.published S self
             ++ Engine.signals_of S D m ty sym d
                  (Engine.strategies S self))%list;
          Engine.log :=
            (Engine.log S self
             ++ Engine.lines_of S D m str_exn ty sym d
                  (Engine.strategies S self))%list |},
       Py.Ok tt).
Proof.
  intros self ty sym d Hsym Hwb. unfold Engine._on_market_event.
  cbn [Engine.event_type Engine.event_symbol Engine.event_data
       Py.truthy_str Py.str_opt].
  destruct (String.eqb_spec sym ""); [contradiction|]. cbn [negb].
  rewrite (serve_pointwise ty sym d _ Hwb). reflexivity.
Qed.
End HostFacts.

Lemma strategy_failure_is_logged_and_isolated_witness :
  let pow := fun _ _ : float => Py.Raise (A := float) Py.ZeroDivisionError in
  let m := Engine.hosted_methods plain_printer pow in
  let str_exn := fun e : Py.exn => "float division by zero" in
  let broken :=
    fst (DCA.on_order_filled
           (fst (DCA.on_tick plain_printer
                   (DCA.initialize
                      (DCA.init "BTCUSDT" 1%float 1%float None None None
                         None None None))
                   (Strategy.tick 100%float)))
           {| Strategy.fill_quantity := Some 1%float;
              Strategy.fill_price := Some 0%float |}) in
  let host := fun v => {| Engine.strat := v; Engine.candles := [];
                          Engine.orderbook := None |} in
  let engine :=
    {| Engine.strategies :=
         [("bot-dca", host (Engine.ADCA broken));
          ("bot-grid",
           host (Engine.AGrid (fst (Grid.initialize pow scenario_grid))))];
       Engine.published := [];
       Engine.log := [] |} in
  let r := Engine._on_market_event Engine.Hosted Strategy.Tick m str_exn
             engine
             {| Engine.event_type := Some "market.tick";
                Engine.event_symbol := Some "BTCUSDT";
                Engine.event_data := Strategy.tick 100%float |} in
  snd r = Py.Ok tt
  /\ map fst (Engine.published Engine.Hosted (fst r)) = ["bot-grid"]
  /\ Engine.log Engine.Hosted (fst r)
     = ["Strategy error for bot-dca: float division by zero";
        "Signal emitted for bot-grid: buy"].
Proof.
  intros pow m str_exn broken host engine r. subst r.
  rewrite (strategy_failure_is_logged_and_isolated Engine.Hosted
             Strategy.Tick m str_exn engine "market.tick" "BTCUSDT"
             (Strategy.tick 100%float)).
  - repeat split.
  - discriminate.
  - repeat constructor; intros _; vm_compute; auto.
Defined.
